(** * The SPC suggestion service: response extraction, projection and
    request handling

  A shallow embedding of [app/gemini_service.py], [app/prompts.py] and
  [app/main.py].  Python values are modelled as the interpreter has them:
  [str] as a string of code points (restricted to U+0000..U+00FF, one
  [ascii] per code point), [float] as IEEE binary64 ([PrimFloat]), [int]
  as [Z], the objects produced by [json.loads] as a tagged union, and
  raised exceptions as the [Raise] branch of a result type. *)

From Stdlib Require Import ZArith List String Ascii Bool Lia Floats.
From Stdlib Require Import DecimalString.
Import ListNotations.

Set Warnings "-inexact-float,-register-all".
Local Open Scope string_scope.
Local Open Scope Z_scope.

(* ================================================================== *)
(** ** 1. Exceptions and the result of a Python call *)

Module Py.

(** The exception classes that the modelled code can raise or meet. *)
Inductive exn : Type :=
| HTTPException (status_code : Z) (detail : string)
| ValueError (msg : string)
| JSONDecodeError (msg : string)      (* subclass of ValueError *)
| ValidationError (msg : string)      (* pydantic v2, subclass of ValueError *)
| KeyError (key : string)
| TypeError (msg : string)
| AttributeError (msg : string)
| OverflowError (msg : string)
| UnboundLocalError (msg : string)
| RecursionError (msg : string)
| OtherError (msg : string).          (* any other [Exception] of the SDK *)

(** [isinstance(e, ValueError)], which is what [except ValueError] tests. *)
Definition is_ValueError (e : exn) : bool :=
  match e with
  | ValueError _ | JSONDecodeError _ | ValidationError _ => true
  | _ => false
  end.

Definition is_JSONDecodeError (e : exn) : bool :=
  match e with
  | JSONDecodeError _ => true
  | _ => false
  end.

Inductive result (A : Type) : Type :=
| Ok (a : A)
| Raise (e : exn).
Arguments Ok {A} a.
Arguments Raise {A} e.

Definition bind {A B : Type} (r : result A) (k : A -> result B) : result B :=
  match r with
  | Ok a => k a
  | Raise e => Raise e
  end.

(** [for x in l: ys.append(f(x))], stopping at the first exception. *)
Fixpoint mapM {A B : Type} (f : A -> result B) (l : list A) : result (list B) :=
  match l with
  | [] => Ok []
  | x :: l' =>
      bind (f x) (fun y => bind (mapM f l') (fun ys => Ok (y :: ys)))
  end.

(** Decimal printing of an [int]: [str(n)]. *)
Definition str_int (z : Z) : string := NilZero.string_of_int (Z.to_int z).

(** [str(e)].  [KeyError] prints the [repr] of its key; Starlette's
    [HTTPException.__str__] prints the status code and the detail. *)
Definition str_exn (e : exn) : string :=
  match e with
  | HTTPException c d => str_int c ++ ": " ++ d
  | KeyError k => "'" ++ k ++ "'"
  | ValueError m | JSONDecodeError m | ValidationError m | TypeError m
  | AttributeError m | OverflowError m | UnboundLocalError m
  | RecursionError m | OtherError m => m
  end.

End Py.

Export Py.

Declare Scope py_scope.
Delimit Scope py_scope with py.
Notation "x <- c1 ;; c2" := (bind c1 (fun x => c2))
  (at level 61, c1 at next level, right associativity) : py_scope.
Local Open Scope py_scope.

(* ================================================================== *)
(** ** 2. Strings: [str.strip], [str.find], [str.rfind], slices *)

Module Str.

(** [str.isspace] on one code point below U+0100; the same predicate is
    the class [\s] of [re] on [str] patterns. *)
Definition is_space (c : ascii) : bool :=
  let n := N_of_ascii c in
  (((9 <=? n) && (n <=? 13)) || ((28 <=? n) && (n <=? 32))
   || (n =? 133) || (n =? 160))%N.

Fixpoint lstrip (s : string) : string :=
  match s with
  | EmptyString => EmptyString
  | String c s' => if is_space c then lstrip s' else s
  end.

Fixpoint rstrip (s : string) : string :=
  match s with
  | EmptyString => EmptyString
  | String c s' =>
      match rstrip s' with
      | EmptyString => if is_space c then EmptyString else String c EmptyString
      | r => String c r
      end
  end.

(** [text.strip()] *)
Definition strip (s : string) : string := rstrip (lstrip s).

(** [text.find(c)] for a one-character needle: the lowest index, or -1. *)
Fixpoint find (c : ascii) (s : string) : Z :=
  match s with
  | EmptyString => -1
  | String a s' =>
      if Ascii.eqb a c then 0
      else let r := find c s' in if r =? -1 then -1 else r + 1
  end.

(** [text.rfind(c)]: the highest index, or -1. *)
Fixpoint rfind (c : ascii) (s : string) : Z :=
  match s with
  | EmptyString => -1
  | String a s' =>
      let r := rfind c s' in
      if r =? -1 then (if Ascii.eqb a c then 0 else -1) else r + 1
  end.

(** [text[i:j]] for indices [0 <= i], [0 <= j] (negative indices, which
    the callers never pass, would count from the end in Python). *)
Definition slice (i j : Z) (s : string) : string :=
  substring (Z.to_nat i) (Z.to_nat (j - i)) s.

End Str.

(* ================================================================== *)
(** ** 3. Floats: arithmetic, [round(x, n)], the [.2f] format, [max], [sum] *)

Module PyFloat.

(** The integer nearest to [num / den] ([den > 0]), ties to the even one. *)
Definition half_even (num den : Z) : Z :=
  let q := num / den in
  let r := num mod den in
  match 2 * r ?= den with
  | Lt => q
  | Gt => q + 1
  | Eq => if Z.even q then q else q + 1
  end.

(** The integer nearest (ties to even) to [m * 2^e * 10^ndigits]: the
    digits that correctly rounded decimal conversion produces for the
    finite double [m * 2^e]. *)
Definition scaled (ndigits : Z) (m : positive) (e : Z) : Z :=
  if 0 <=? e then Zpos m * 2 ^ e * 10 ^ ndigits
  else half_even (Zpos m * 10 ^ ndigits) (2 ^ (- e)).

(** [round(x, ndigits)] on a float, [ndigits >= 0]: CPython converts [x] to
    the correctly rounded decimal with [ndigits] places and converts that
    decimal back to the nearest double; nan and the infinities are returned
    unchanged, and the sign of a zero result is the sign of [x]. *)
Definition round (x : float) (ndigits : Z) : float :=
  match Prim2SF x with
  | S754_finite s m e =>
      match scaled ndigits m e with
      | Zpos n =>
          SF2Prim (SFdiv prec emax (S754_finite s n 0)
                     (S754_finite false (Z.to_pos (10 ^ ndigits)) 0))
      | _ => SF2Prim (S754_zero s)
      end
  | _ => x
  end.

(** [float(z)] as the arithmetic operators convert an [int] operand: the
    nearest double, [OverflowError] when it is out of range. *)
Definition of_int (z : Z) : result float :=
  match binary_normalize prec emax z 0 false with
  | S754_infinity _ => Raise (OverflowError "int too large to convert to float")
  | sf => Ok (SF2Prim sf)
  end.

(** [x > y] *)
Definition gt (x y : float) : bool := PrimFloat.ltb y x.

(** [max(l)] on a non-empty list: the running maximum is replaced when the
    next element compares greater. *)
Definition max (x : float) (l : list float) : float :=
  fold_left (fun m y => if gt y m then y else m) l x.

(** [sum(l)] from the [int] start value 0: the partial sum becomes a float
    at the first float and the elements are added from left to right
    (CPython 3.12 adds a compensation term to the same loop). *)
Definition sum (l : list float) : float :=
  fold_left PrimFloat.add l PrimFloat.zero.

Definition digit (z : Z) : ascii := ascii_of_N (48 + Z.to_N z).

(** [f"{x:.2f}"] *)
Definition format_2f (x : float) : string :=
  match Prim2SF x with
  | S754_nan => "nan"
  | S754_infinity s => if s then "-inf" else "inf"
  | S754_zero s => if s then "-0.00" else "0.00"
  | S754_finite s m e =>
      let n := scaled 2 m e in
      (if s then "-" else "")
        ++ str_int (n / 100) ++ "."
        ++ String (digit (n / 10 mod 10)) (String (digit (n mod 10)) "")
  end.

End PyFloat.

(* ================================================================== *)
(** ** 4. The objects of [json.loads] *)

Module Json.

Inductive json : Type :=
| JNull
| JBool (b : bool)
| JInt (z : Z)
| JFloat (f : float)
| JStr (s : string)
| JArr (l : list json)
| JObj (d : list (string * json)).

(** A [dict] keeps one value per key; its items are listed in insertion
    order and a key is looked up at its first binding. *)
Fixpoint lookup (k : string) (d : list (string * json)) : option json :=
  match d with
  | [] => None
  | (k', v) :: d' => if String.eqb k' k then Some v else lookup k d'
  end.

Definition type_name (v : json) : string :=
  match v with
  | JNull => "NoneType"
  | JBool _ => "bool"
  | JInt _ => "int"
  | JFloat _ => "float"
  | JStr _ => "str"
  | JArr _ => "list"
  | JObj _ => "dict"
  end.

(** [v[k]] with a [str] key [k]. *)
Definition getitem (v : json) (k : string) : result json :=
  match v with
  | JObj d =>
      match lookup k d with
      | Some x => Ok x
      | None => Raise (KeyError k)
      end
  | JArr _ => Raise (TypeError "list indices must be integers or slices, not str")
  | JStr _ => Raise (TypeError "string indices must be integers, not 'str'")
  | _ => Raise (TypeError ("'" ++ type_name v ++ "' object is not subscriptable"))
  end.

(** [v.get(k, default)]: a method of [dict] only. *)
Definition get (v : json) (k : string) (default : json) : result json :=
  match v with
  | JObj d =>
      match lookup k d with
      | Some x => Ok x
      | None => Ok default
      end
  | _ => Raise (AttributeError
                  ("'" ++ type_name v ++ "' object has no attribute 'get'"))
  end.

(** Truth value of an object, as [if v] and [not v] test it. *)
Definition truthy (v : json) : bool :=
  match v with
  | JNull => false
  | JBool b => b
  | JInt z => negb (z =? 0)
  | JFloat f => negb (PrimFloat.eqb f PrimFloat.zero)
  | JStr s => negb (String.eqb s "")
  | JArr l => match l with [] => false | _ => true end
  | JObj d => match d with [] => false | _ => true end
  end.

(** [s == v] for a [str] [s]: true exactly when [v] is an equal [str]. *)
Definition str_eq (s : string) (v : json) : bool :=
  match v with
  | JStr t => String.eqb s t
  | _ => false
  end.

Fixpoint chars (s : string) : list json :=
  match s with
  | EmptyString => []
  | String c s' => JStr (String c EmptyString) :: chars s'
  end.

(** The objects that [for x in v[:3]] visits.  A list gives its first
    three elements and a [str] its first three characters; slicing a [dict]
    raises ([TypeError] up to CPython 3.11, [KeyError] from 3.12, neither a
    [ValueError]); the other objects are not subscriptable. *)
Definition iter_first3 (v : json) : result (list json) :=
  match v with
  | JArr l => Ok (firstn 3 l)
  | JStr s => Ok (firstn 3 (chars s))
  | JObj _ => Raise (TypeError "unhashable type: 'slice'")
  | _ => Raise (TypeError ("'" ++ type_name v ++ "' object is not subscriptable"))
  end.

(** [x - v] for a float [x]: defined when [v] is a float or an [int]
    ([bool] included). *)
Definition float_sub (x : float) (v : json) : result float :=
  match v with
  | JFloat y => Ok (PrimFloat.sub x y)
  | JInt z => y <- PyFloat.of_int z ;; Ok (PrimFloat.sub x y)
  | JBool b => Ok (PrimFloat.sub x (if b then PrimFloat.one else PrimFloat.zero))
  | _ => Raise (TypeError ("unsupported operand type(s) for -: 'float' and '"
                             ++ type_name v ++ "'"))
  end.

(** [round(v, 1)] for the two kinds of number the caller passes: a float is
    rounded as a float, an [int] is returned as it is. *)
Definition round1 (v : json) : json :=
  match v with
  | JFloat f => JFloat (PyFloat.round f 1)
  | _ => v
  end.

End Json.

Export Json.

(* ================================================================== *)
(** ** 5. [re.search]: a backtracking matcher for the operators in use *)

Module Re.

(** The fragment of the pattern language that the service's pattern is
    written in; [StarG] and [StarL] repeat a character class, greedily and
    lazily, and [Grp] is capturing group 1. *)
Inductive regex : Type :=
| Lit (s : string)
| Opt (r : regex)
| StarG (p : ascii -> bool)
| StarL (p : ascii -> bool)
| Cat (r1 r2 : regex)
| Grp (r : regex).

(** [lit s t]: what is left of [t] after the literal [s], if [t] starts
    with it. *)
Fixpoint lit (s t : string) : option string :=
  match s with
  | EmptyString => Some t
  | String c s' =>
      match t with
      | String d t' => if Ascii.eqb c d then lit s' t' else None
      | EmptyString => None
      end
  end.

Section Matcher.

Context {R : Type}.

(** Greedy repetition: take one more character first, come back to the
    shorter repetition when the rest of the pattern fails. *)
Fixpoint starG (p : ascii -> bool) (k : string -> option R) (t : string)
  : option R :=
  match t with
  | String c t' =>
      if p c then
        match starG p k t' with
        | Some r => Some r
        | None => k t
        end
      else k t
  | EmptyString => k t
  end.

(** Lazy repetition: try the rest of the pattern first. *)
Fixpoint starL (p : ascii -> bool) (k : string -> option R) (t : string)
  : option R :=
  match k t with
  | Some r => Some r
  | None =>
      match t with
      | String c t' => if p c then starL p k t' else None
      | EmptyString => None
      end
  end.

(** [matches r t g k]: match [r] at the start of [t], with [g] the text
    captured so far, and continue with [k] on the rest; alternatives are
    tried in the order of the engine and the first success is returned. *)
Fixpoint matches (r : regex) (t : string) (g : option string)
  (k : string -> option string -> option R) : option R :=
  match r with
  | Lit s =>
      match lit s t with
      | Some t' => k t' g
      | None => None
      end
  | Opt r1 =>
      match matches r1 t g k with
      | Some x => Some x
      | None => k t g
      end
  | StarG p => starG p (fun t' => k t' g) t
  | StarL p => starL p (fun t' => k t' g) t
  | Cat r1 r2 => matches r1 t g (fun t' g' => matches r2 t' g' k)
  | Grp r1 =>
      matches r1 t g
        (fun t' _ => k t' (Some (substring 0 (length t - length t') t)))
  end.

End Matcher.

(** [re.search(r, text)] followed by [.group(1)]: the leftmost start at
    which the pattern matches; [None] when there is no match, [Some None]
    when the group took no part in the match. *)
Fixpoint search (r : regex) (text : string) : option (option string) :=
  match matches r text None (fun _ g => Some g) with
  | Some g => Some g
  | None =>
      match text with
      | String _ text' => search r text'
      | EmptyString => None
      end
  end.

Definition any (c : ascii) : bool := true.

End Re.

(* ================================================================== *)
(** ** 6. The request and response models ([app/models.py]) *)

Module ItemInput.
Record t : Type := {
  itemId : string;
  name : string;
  currentCost : float;
  lastUsed : option string;
  catalogNo : option string;
  category : option string;
  unitOfMeasure : option string }.
End ItemInput.

Module SuggestionRequest.
Record t : Type := {
  spcId : string;
  subGrid : string;
  items : list ItemInput.t;
  procedureType : option string;
  facilityId : option string }.
End SuggestionRequest.

Module AlternativeSuggestion.
Record t : Type := {
  suggestedItemId : option string;
  name : string;
  estimatedCost : float;
  costSavings : float;
  savingsPercent : float;
  confidence : float;
  rationale : string }.
End AlternativeSuggestion.

Module RemovalSuggestion.
Record t : Type := {
  recommended : bool;
  reason : option string;
  actionableCheckboxId : option string }.
End RemovalSuggestion.

Module ItemAnalysis.
Record t : Type := {
  itemId : string;
  name : string;
  currentCost : float;
  lastUsed : option string;
  neverUsedFlag : bool;
  suggestions : list AlternativeSuggestion.t;
  removalSuggestion : RemovalSuggestion.t }.
End ItemAnalysis.

Module UIHints.
Record t : Type := {
  displayMode : string;
  priorityItems : list string;
  pagination_page : Z;
  pagination_pageSize : Z }.
End UIHints.

(** [meta] (two clock readings and the configured model name) is left out. *)
Module SuggestionResponse.
Record t : Type := {
  spcId : string;
  subGrid : string;
  itemsAnalyzed : list ItemAnalysis.t;
  summary : string;
  uiHints : UIHints.t }.
End SuggestionResponse.

(** The dictionaries that [_process_gemini_response] builds.  Their keys
    are fixed by the dict displays in the source; a value that is copied
    from the model's output is an arbitrary object. *)
Module SuggestionDict.
Record t : Type := {
  suggestedItemId : json;
  name : json;
  estimatedCost : json;
  costSavings : float;
  savingsPercent : json;
  confidence : json;
  rationale : json }.
End SuggestionDict.

Module RemovalDict.
Record t : Type := {
  recommended : json;
  reason : json;
  actionableCheckboxId : option string }.
End RemovalDict.

Module ItemDict.
Record t : Type := {
  itemId : json;
  name : json;
  currentCost : float;
  lastUsed : option string;
  neverUsedFlag : json;
  suggestions : list SuggestionDict.t;
  removalSuggestion : RemovalDict.t }.
End ItemDict.

(** What [model.generate_content] returns: the candidates, each with the
    texts of its content parts ([None] for a candidate without content). *)
Record GenerateContentResponse : Type := {
  candidates : list (option (list string)) }.

(** The collaborators that are not code of this repository. *)
Class Externals : Type := {
  (** [json.loads] on a [str]: the object, or the exception that the
      call raises.  That is [json.JSONDecodeError] for a text that is not
      JSON, and it can be another one: a plain [ValueError] for an integer
      literal longer than the interpreter's limit of 4300 digits, a
      [RecursionError] for brackets nested too deep. *)
  json_loads : string -> result json;
  (** [str(v)] for an object [v] that is not a [str] (the [repr] of floats
      and containers is the interpreter's). *)
  str_other : json -> string;
  (** [build_suggestion_prompt]: the prompt text, which prints floats with
      their [repr]; no property below depends on it. *)
  build_suggestion_prompt :
    list ItemInput.t -> string -> option string -> string;
  (** [self.model.generate_content(prompt)], the provider call. *)
  generate_content : string -> result GenerateContentResponse;
  (** The constructor [ItemAnalysis] on the keys of a dict: pydantic's
      validation and coercion;
      [inl msg] is [pydantic.ValidationError]. *)
  validate_ItemAnalysis : ItemDict.t -> string + ItemAnalysis.t }.

(* ================================================================== *)
(** ** 7. [app/gemini_service.py] *)

Module GeminiService.

Import Str.

(** [r'```(?:json)?\s*(\{[\s\S]*?\})\s*```'] *)
Definition fence_pattern : Re.regex :=
  Re.Cat (Re.Lit "```")
    (Re.Cat (Re.Opt (Re.Lit "json"))
       (Re.Cat (Re.StarG is_space)
          (Re.Cat (Re.Grp (Re.Cat (Re.Lit "{")
                             (Re.Cat (Re.StarL Re.any) (Re.Lit "}"))))
             (Re.Cat (Re.StarG is_space) (Re.Lit "```"))))).

Definition extract_error : exn :=
  ValueError "Could not extract valid JSON from Gemini response".

(** [len(v)] *)
Definition len (v : json) : result Z :=
  match v with
  | JArr l => Ok (Z.of_nat (List.length l))
  | JStr s => Ok (Z.of_nat (String.length s))
  | JObj d => Ok (Z.of_nat (List.length d))
  | _ => Raise (TypeError ("object of type '" ++ type_name v ++ "' has no len()"))
  end.

(** The objects that [for x in v] visits: the elements of a list, the
    characters of a [str], the keys of a [dict]. *)
Definition iter (v : json) : result (list json) :=
  match v with
  | JArr l => Ok l
  | JStr s => Ok (chars s)
  | JObj d => Ok (map (fun kv => JStr (fst kv)) d)
  | _ => Raise (TypeError ("'" ++ type_name v ++ "' object is not iterable"))
  end.

Section WithExternals.

Context {E : Externals}.

(** [f"{v}"]: a [str] is inserted as it is. *)
Definition format_value (v : json) : string :=
  match v with
  | JStr s => s
  | _ => str_other v
  end.

(** Strategy 3 of [_extract_json] and the final [raise].  The handler of
    each [try] is [except json.JSONDecodeError]: any other exception of
    [json.loads] leaves the function. *)
Definition extract_braces (text : string) : result json :=
  let first_brace := find "{" text in
  let last_brace := rfind "}" text in
  if negb (first_brace =? -1) && negb (last_brace =? -1)
     && (first_brace <? last_brace)
  then
    let json_str := slice first_brace (last_brace + 1) text in
    match json_loads json_str with
    | Ok v => Ok v
    | Raise e => if is_JSONDecodeError e then Raise extract_error else Raise e
    end
  else Raise extract_error.

(** Strategy 2 of [_extract_json], falling through to strategy 3. *)
Definition extract_fenced (text : string) : result json :=
  match Re.search fence_pattern text with
  | Some json_match =>
      match json_match with
      | Some group1 =>
          match json_loads group1 with
          | Ok v => Ok v
          | Raise e =>
              if is_JSONDecodeError e then extract_braces text else Raise e
          end
      | None =>
          Raise (TypeError
            "the JSON object must be str, bytes or bytearray, not NoneType")
      end
  | None => extract_braces text
  end.

Definition _extract_json (text : string) : result json :=
  let text := strip text in
  match json_loads text with
  | Ok v => Ok v
  | Raise e => if is_JSONDecodeError e then extract_fenced text else Raise e
  end.

(** [next((i for i in original_items if i['itemId'] == item_result['itemId']),
    None)]: the subscript of [item_result] is evaluated once per visited
    original item. *)
Fixpoint find_original (original_items : list ItemInput.t) (item_result : json)
  : result (option ItemInput.t) :=
  match original_items with
  | [] => Ok None
  | i :: rest =>
      v <- getitem item_result "itemId" ;;
      if str_eq (ItemInput.itemId i) v then Ok (Some i)
      else find_original rest item_result
  end.

(** The body of the loop over the first three suggestions. *)
Definition process_suggestion (current_cost : float) (sugg : json)
  : result SuggestionDict.t :=
  estimated <- getitem sugg "estimatedCost" ;;
  cost_savings <- float_sub current_cost estimated ;;
  let savings_percent :=
    if PyFloat.gt current_cost PrimFloat.zero
    then JFloat (PrimFloat.mul (PrimFloat.div cost_savings current_cost) 100%float)
    else JInt 0 in
  name <- getitem sugg "name" ;;
  estimatedCost <- getitem sugg "estimatedCost" ;;
  confidence <- get sugg "confidence" (JFloat 0.7%float) ;;
  rationale <- getitem sugg "rationale" ;;
  Ok {| SuggestionDict.suggestedItemId := JNull;
        SuggestionDict.name := name;
        SuggestionDict.estimatedCost := estimatedCost;
        SuggestionDict.costSavings := PyFloat.round cost_savings 2;
        SuggestionDict.savingsPercent := round1 savings_percent;
        SuggestionDict.confidence := confidence;
        SuggestionDict.rationale := rationale |}.

(** The body of the loop over the model's items: [None] is [continue]. *)
Definition process_item (original_items : list ItemInput.t) (item_result : json)
  : result (option ItemDict.t) :=
  original <- find_original original_items item_result ;;
  match original with
  | None =>
      (* the warning's message is formatted with item_result.get('itemId') *)
      _ <- get item_result "itemId" JNull ;;
      Ok None
  | Some original =>
      let current_cost := ItemInput.currentCost original in
      sv <- get item_result "suggestions" (JArr []) ;;
      first3 <- iter_first3 sv ;;
      suggestions <- mapM (process_suggestion current_cost) first3 ;;
      never_used <- get item_result "neverUsedFlag" (JBool false) ;;
      removal <- get item_result "removalSuggestion" (JObj []) ;;
      itemId <- getitem item_result "itemId" ;;
      name <- getitem item_result "name" ;;
      recommended <- get removal "recommended" never_used ;;
      reason <- get removal "reason" JNull ;;
      flag <- get removal "recommended" JNull ;;
      checkbox <-
        (if truthy flag
         then v <- getitem item_result "itemId" ;;
              Ok (Some ("chk_" ++ format_value v))
         else Ok None) ;;
      Ok (Some
            {| ItemDict.itemId := itemId;
               ItemDict.name := name;
               ItemDict.currentCost := current_cost;
               ItemDict.lastUsed := ItemInput.lastUsed original;
               ItemDict.neverUsedFlag := never_used;
               ItemDict.suggestions := suggestions;
               ItemDict.removalSuggestion :=
                 {| RemovalDict.recommended := recommended;
                    RemovalDict.reason := reason;
                    RemovalDict.actionableCheckboxId := checkbox |} |})
  end.

(** The loop of [_process_gemini_response]; [processed_items] is the list
    that the loop appends to. *)
Fixpoint process_items (original_items : list ItemInput.t)
  (items_from_gemini : list json) (processed_items : list ItemDict.t)
  : result (list ItemDict.t) :=
  match items_from_gemini with
  | [] => Ok processed_items
  | item_result :: rest =>
      r <- process_item original_items item_result ;;
      match r with
      | None => process_items original_items rest processed_items
      | Some d => process_items original_items rest (processed_items ++ [d])%list
      end
  end.

(** The value under ["items"] of the returned dict. *)
Definition _process_gemini_response (gemini_result : json)
  (original_items : list ItemInput.t) : result (list ItemDict.t) :=
  items_from_gemini <- get gemini_result "items" (JArr []) ;;
  _ <- len items_from_gemini ;;
  entries <- iter items_from_gemini ;;
  process_items original_items entries [].

(** The [try] body of [generate_suggestions] after the provider call. *)
Definition handle_response (response : GenerateContentResponse)
  (items : list ItemInput.t) : result (list ItemDict.t) :=
  match candidates response with
  | [] =>
      Raise (ValueError
        "Gemini returned empty response - request may have been blocked by safety filters")
  | candidate :: _ =>
      match candidate with
      | Some (part :: _) =>
          result <- _extract_json part ;;
          _process_gemini_response result items
      | _ =>
          Raise (ValueError
            "Gemini returned no content - request blocked by safety filters")
      end
  end.

(** [generate_suggestions]: the second component lists the prompts that
    were passed to the provider, in order.  The handler for
    [json.JSONDecodeError] reads [raw_text], which is unbound while the
    provider call is running; every other exception is raised again. *)
Definition generate_suggestions (items : list ItemInput.t) (sub_grid : string)
  (procedure_type : option string) : result (list ItemDict.t) * list string :=
  let prompt := build_suggestion_prompt items sub_grid procedure_type in
  match generate_content prompt with
  | Raise e =>
      if is_JSONDecodeError e
      then (Raise (UnboundLocalError
              "cannot access local variable 'raw_text' where it is not associated with a value"),
            [prompt])
      else (Raise e, [prompt])
  | Ok response =>
      match handle_response response items with
      | Raise e =>
          if is_JSONDecodeError e
          then (Raise (ValueError ("Gemini returned invalid JSON: " ++ str_exn e)),
                [prompt])
          else (Raise e, [prompt])
      | Ok v => (Ok v, [prompt])
      end
  end.

End WithExternals.

End GeminiService.

(* ================================================================== *)
(** ** 8. [app/prompts.py]: [build_summary_prompt] *)

Module Prompts.

(** [max([s['costSavings'] for s in item['suggestions']], default=0)] for
    an item whose suggestions are not empty; [None] for the items that the
    generator's filter [if item.get('suggestions')] leaves out. *)
Definition max_savings (item : ItemAnalysis.t) : option float :=
  match ItemAnalysis.suggestions item with
  | [] => None
  | s :: rest =>
      Some (PyFloat.max (AlternativeSuggestion.costSavings s)
              (map AlternativeSuggestion.costSavings rest))
  end.

(** The generator that is passed to [sum]. *)
Fixpoint savings_terms (analysis_results : list ItemAnalysis.t) : list float :=
  match analysis_results with
  | [] => []
  | item :: rest =>
      match max_savings item with
      | Some m => m :: savings_terms rest
      | None => savings_terms rest
      end
  end.

(** [sum(1 for item in l if p(item))] *)
Fixpoint count_if {A : Type} (p : A -> bool) (l : list A) : Z :=
  match l with
  | [] => 0
  | x :: l' => if p x then 1 + count_if p l' else count_if p l'
  end.

Definition has_suggestions (item : ItemAnalysis.t) : bool :=
  match ItemAnalysis.suggestions item with
  | [] => false
  | _ => true
  end.

(** The [sum] of no term is the [int] 0, which [.2f] prints as the float
    zero is printed. *)
Definition build_summary_prompt (analysis_results : list ItemAnalysis.t)
  : string :=
  let total_items := Z.of_nat (List.length analysis_results) in
  let items_with_suggestions := count_if has_suggestions analysis_results in
  let removal_candidates := count_if ItemAnalysis.neverUsedFlag analysis_results in
  let total_potential_savings := PyFloat.sum (savings_terms analysis_results) in
  "Analyzed " ++ str_int total_items
    ++ " items. Found cost-saving alternatives for "
    ++ str_int items_with_suggestions
    ++ " items with potential savings of $"
    ++ PyFloat.format_2f total_potential_savings
    ++ ". Identified " ++ str_int removal_candidates
    ++ " never-used items recommended for removal.".

End Prompts.

(* ================================================================== *)
(** ** 9. [app/main.py]: the suggestions endpoint *)

Module Main.

(** What the client receives: the response model with status 200, or the
    status code and detail of the [HTTPException] that left the handler
    (rendered by [http_exception_handler] with that status code). *)
Inductive http_response : Type :=
| Response200 (body : SuggestionResponse.t)
| ErrorResponse (status_code : Z) (detail : string).

(** One turn of the loop that collects the priority items. *)
Definition priority_step (priority_items : list string) (item : ItemAnalysis.t)
  : list string :=
  let after_savings :=
    match ItemAnalysis.suggestions item with
    | [] => priority_items
    | s :: rest =>
        let max_savings :=
          PyFloat.max (AlternativeSuggestion.costSavings s)
            (map AlternativeSuggestion.costSavings rest) in
        if PyFloat.gt max_savings 50%float
        then (priority_items ++ [ItemAnalysis.itemId item])%list
        else priority_items
    end in
  if RemovalSuggestion.recommended (ItemAnalysis.removalSuggestion item)
  then (after_savings ++ [ItemAnalysis.itemId item])%list
  else after_savings.

Definition priority_loop (items_analyzed : list ItemAnalysis.t) : list string :=
  fold_left priority_step items_analyzed [].

(** [priority_items[:5]] *)
Definition top5 (priority_items : list string) : list string :=
  firstn 5 priority_items.

Section WithExternals.

Context {E : Externals}.

(** One element of the comprehension that maps the dicts to the response
    model [ItemAnalysis]. *)
Definition validate (d : ItemDict.t) : result ItemAnalysis.t :=
  match validate_ItemAnalysis d with
  | inl msg => Raise (ValidationError msg)
  | inr a => Ok a
  end.

(** The part of the [try] body after the provider's result is back. *)
Definition build_response (request : SuggestionRequest.t)
  (gemini_result : list ItemDict.t) : result SuggestionResponse.t :=
  items_analyzed <- mapM validate gemini_result ;;
  let summary := Prompts.build_summary_prompt items_analyzed in
  let priority_items := priority_loop items_analyzed in
  Ok {| SuggestionResponse.spcId := SuggestionRequest.spcId request;
        SuggestionResponse.subGrid := SuggestionRequest.subGrid request;
        SuggestionResponse.itemsAnalyzed := items_analyzed;
        SuggestionResponse.summary := summary;
        SuggestionResponse.uiHints :=
          {| UIHints.displayMode := "panel";
             UIHints.priorityItems := top5 priority_items;
             UIHints.pagination_page := 1;
             UIHints.pagination_pageSize :=
               Z.of_nat (List.length items_analyzed) |} |}.

(** The [try] body: its result and the prompts sent to the provider. *)
Definition try_body (request : SuggestionRequest.t)
  : result SuggestionResponse.t * list string :=
  match SuggestionRequest.items request with
  | [] => (Raise (HTTPException 400 "No items provided for analysis"), [])
  | items =>
      if 50 <? Z.of_nat (List.length items)
      then (Raise (HTTPException 400 "Maximum 50 items per request"), [])
      else
        let '(r, calls) :=
          GeminiService.generate_suggestions items
            (SuggestionRequest.subGrid request)
            (SuggestionRequest.procedureType request) in
        (gemini_result <- r ;; build_response request gemini_result, calls)
  end.

(** [generate_suggestions]: the [try] body under its two handlers,
    [except ValueError] first and [except Exception] second. *)
Definition generate_suggestions (request : SuggestionRequest.t)
  : http_response * list string :=
  let '(r, calls) := try_body request in
  match r with
  | Ok response => (Response200 response, calls)
  | Raise e =>
      if is_ValueError e
      then (ErrorResponse 422 (str_exn e), calls)
      else (ErrorResponse 500 ("Internal server error: " ++ str_exn e), calls)
  end.

End WithExternals.

End Main.

(* ================================================================== *)
(** ** 10. Statements in the words of the specification *)

Module Spec.

Import Str.




Definition other_than (c : ascii) (x : ascii) : bool := negb (Ascii.eqb x c).



Section WithExternals.

Context {E : Externals}.








End WithExternals.

(** [s] consists of characters of the class [p]. *)
Fixpoint all_chars (p : ascii -> bool) (s : string) : bool :=
  match s with
  | EmptyString => true
  | String c s' => p c && all_chars p s'
  end.


(** [text] holds a fenced block, opened by three backticks and an optional
    tag [json], whose interior [body] runs from an opening to a closing
    brace. *)
Definition fenced_in (text body : string) : Prop :=
  exists pre tag ws1 mid ws2 post,
    text = pre ++ "```" ++ tag ++ ws1 ++ body ++ ws2 ++ "```" ++ post
    /\ (tag = "" \/ tag = "json")
    /\ all_chars is_space ws1 = true
    /\ all_chars is_space ws2 = true
    /\ body = "{" ++ mid ++ "}".

(** The suggestion that the projector is specified to emit for the model's
    suggestion [sugg] of an item that costs [current_cost]; [difference] is
    [current_cost - estimatedCost] before any rounding. *)
Definition projected_suggestion (current_cost : float) (sugg : json)
  (d : SuggestionDict.t) : Prop :=
  exists estimated difference,
    getitem sugg "estimatedCost" = Ok estimated
    /\ float_sub current_cost estimated = Ok difference
    /\ SuggestionDict.costSavings d = PyFloat.round difference 2
    /\ SuggestionDict.savingsPercent d =
         (if PyFloat.gt current_cost PrimFloat.zero
          then JFloat (PyFloat.round
                 (PrimFloat.mul (PrimFloat.div difference current_cost) 100%float) 1)
          else JInt 0)
    /\ get sugg "confidence" (JFloat 0.7%float) = Ok (SuggestionDict.confidence d)
    /\ getitem sugg "name" = Ok (SuggestionDict.name d)
    /\ getitem sugg "rationale" = Ok (SuggestionDict.rationale d)
    /\ SuggestionDict.estimatedCost d = estimated
    /\ SuggestionDict.suggestedItemId d = JNull.

(** The identifiers that one analysed item contributes to the priority
    list: one for savings above the threshold, one for a recommended
    removal. *)
Definition exceeds_threshold (item : ItemAnalysis.t) : bool :=
  match Prompts.max_savings item with
  | Some m => PyFloat.gt m 50%float
  | None => false
  end.

Definition priority_ids (item : ItemAnalysis.t) : list string :=
  ((if exceeds_threshold item then [ItemAnalysis.itemId item] else [])
   ++ (if RemovalSuggestion.recommended (ItemAnalysis.removalSuggestion item)
       then [ItemAnalysis.itemId item] else []))%list.

(** [item] has at least one suggestion. *)
Definition has_suggestion (item : ItemAnalysis.t) : bool :=
  (1 <=? List.length (ItemAnalysis.suggestions item))%nat.

(** [m] is a maximum single-suggestion saving of [item]: the saving of one
    of its suggestions, and no suggestion of the item saves more. *)
Definition largest_saving (item : ItemAnalysis.t) (m : float) : Prop :=
  (exists s, In s (ItemAnalysis.suggestions item)
             /\ AlternativeSuggestion.costSavings s = m)
  /\ forall s, In s (ItemAnalysis.suggestions item) ->
               PyFloat.gt (AlternativeSuggestion.costSavings s) m = false.

(** Potential savings: the sum, over the items with suggestions, of a
    maximum single-suggestion saving of the item. *)
Definition potential_savings (items : list ItemAnalysis.t) (total : float)
  : Prop :=
  exists terms,
    Forall2 largest_saving (filter has_suggestion items) terms
    /\ total = PyFloat.sum terms.

Definition is_digit (c : ascii) : bool :=
  let n := N_of_ascii c in ((48 <=? n) && (n <=? 57))%N.

(** A figure with exactly two decimal places: an optional sign, one or
    more digits, a point and two digits. *)
Definition two_decimal_places (s : string) : Prop :=
  exists sign int_part d1 d2,
    s = sign ++ int_part ++ "." ++ String d1 (String d2 "")
    /\ (sign = "" \/ sign = "-")
    /\ int_part <> ""
    /\ all_chars is_digit int_part = true
    /\ is_digit d1 = true /\ is_digit d2 = true.

Definition is_finite (x : float) : bool :=
  match Prim2SF x with
  | S754_zero _ | S754_finite _ _ _ => true
  | _ => false
  end.

(** A retained suggestion that lacks a required field: [entry] is one of
    the model's items, it names the request item [o], and among the first
    three objects of its [suggestions] list one is a dict without one of
    the keys [name], [estimatedCost], [rationale]. *)
Definition required_fields : list string := ["name"; "estimatedCost"; "rationale"].

Definition lacks_required_field (sugg : json) : Prop :=
  exists d k, sugg = JObj d /\ In k required_fields /\ lookup k d = None.

Definition malformed_retained (original_items : list ItemInput.t)
  (entry : json) : Prop :=
  exists o d suggs sugg,
    In o original_items
    /\ entry = JObj d
    /\ lookup "itemId" d = Some (JStr (ItemInput.itemId o))
    /\ lookup "suggestions" d = Some (JArr suggs)
    /\ In sugg (firstn 3 suggs)
    /\ lacks_required_field sugg.

(** [entry] is one of the items of the model's parsed answer. *)
Definition model_entry (parsed entry : json) : Prop :=
  exists v entries,
    get parsed "items" (JArr []) = Ok v
    /\ GeminiService.iter v = Ok entries
    /\ In entry entries.

(** The records that one turn of the loop appends. *)
Definition appended (r : option ItemDict.t) : list ItemDict.t :=
  match r with
  | Some d => [d]
  | None => []
  end.

(** [Lang r s g g']: the text [s] is a match of [r], and a match that
    starts with the capture [g] ends with the capture [g']. *)
Inductive Lang : Re.regex -> string -> option string -> option string -> Prop :=
| Lang_Lit s g : Lang (Re.Lit s) s g g
| Lang_Opt_some r s g g' : Lang r s g g' -> Lang (Re.Opt r) s g g'
| Lang_Opt_none r g : Lang (Re.Opt r) "" g g
| Lang_StarG p s g : all_chars p s = true -> Lang (Re.StarG p) s g g
| Lang_StarL p s g : all_chars p s = true -> Lang (Re.StarL p) s g g
| Lang_Cat r1 r2 s1 s2 g g1 g2 :
    Lang r1 s1 g g1 -> Lang r2 s2 g1 g2 -> Lang (Re.Cat r1 r2) (s1 ++ s2) g g2
| Lang_Grp r s g g' : Lang r s g g' -> Lang (Re.Grp r) s g (Some s).

End Spec.

(* ================================================================== *)
(** ** 11. Fixtures: concrete collaborators and inputs for the examples *)

Module Fixture.

Definition dq : string := String "034"%char "".
Definition nl : string := String "010"%char "".

Fixpoint assoc {A : Type} (k : string) (table : list (string * A)) : option A :=
  match table with
  | [] => None
  | (k', v) :: table' => if String.eqb k' k then Some v else assoc k table'
  end.

Definition to_float (v : json) : option float :=
  match v with
  | JFloat f => Some f
  | JInt z => match PyFloat.of_int z with Ok f => Some f | Raise _ => None end
  | _ => None
  end.

Definition to_str (v : json) : option string :=
  match v with JStr s => Some s | _ => None end.

Definition to_bool (v : json) : option bool :=
  match v with JBool b => Some b | _ => None end.

Definition to_opt_str (v : json) : option (option string) :=
  match v with
  | JNull => Some None
  | JStr s => Some (Some s)
  | _ => None
  end.

Definition opt_bind {A B : Type} (o : option A) (k : A -> option B) : option B :=
  match o with Some a => k a | None => None end.

Definition strict_suggestion (d : SuggestionDict.t)
  : option AlternativeSuggestion.t :=
  opt_bind (to_str (SuggestionDict.name d)) (fun name =>
  opt_bind (to_float (SuggestionDict.estimatedCost d)) (fun cost =>
  opt_bind (to_float (SuggestionDict.savingsPercent d)) (fun pct =>
  opt_bind (to_float (SuggestionDict.confidence d)) (fun conf =>
  opt_bind (to_str (SuggestionDict.rationale d)) (fun why =>
  Some {| AlternativeSuggestion.suggestedItemId := None;
          AlternativeSuggestion.name := name;
          AlternativeSuggestion.estimatedCost := cost;
          AlternativeSuggestion.costSavings := SuggestionDict.costSavings d;
          AlternativeSuggestion.savingsPercent := pct;
          AlternativeSuggestion.confidence := conf;
          AlternativeSuggestion.rationale := why |}))))).

Fixpoint all_some {A B : Type} (f : A -> option B) (l : list A) : option (list B) :=
  match l with
  | [] => Some []
  | x :: l' =>
      opt_bind (f x) (fun y => opt_bind (all_some f l') (fun ys => Some (y :: ys)))
  end.

(** A validator that accepts the dicts whose values already have the
    declared types (an [int] where a float is declared included) and
    rejects the others; pydantic accepts more. *)
Definition strict_validate (d : ItemDict.t) : string + ItemAnalysis.t :=
  let r :=
    opt_bind (to_str (ItemDict.itemId d)) (fun itemId =>
    opt_bind (to_str (ItemDict.name d)) (fun name =>
    opt_bind (to_bool (ItemDict.neverUsedFlag d)) (fun never =>
    opt_bind (all_some strict_suggestion (ItemDict.suggestions d)) (fun suggs =>
    let rem := ItemDict.removalSuggestion d in
    opt_bind (to_bool (RemovalDict.recommended rem)) (fun recommended =>
    opt_bind (to_opt_str (RemovalDict.reason rem)) (fun reason =>
    Some {| ItemAnalysis.itemId := itemId;
            ItemAnalysis.name := name;
            ItemAnalysis.currentCost := ItemDict.currentCost d;
            ItemAnalysis.lastUsed := ItemDict.lastUsed d;
            ItemAnalysis.neverUsedFlag := never;
            ItemAnalysis.suggestions := suggs;
            ItemAnalysis.removalSuggestion :=
              {| RemovalSuggestion.recommended := recommended;
                 RemovalSuggestion.reason := reason;
                 RemovalSuggestion.actionableCheckboxId :=
                   RemovalDict.actionableCheckboxId rem |} |})))))) in
  match r with
  | Some a => inr a
  | None => inl "validation error"
  end.

(** [json.loads] given by two finite tables: the texts that parse, with
    their objects, and the texts on which the call raises an exception
    other than [JSONDecodeError], with the exception.  Every other text is
    rejected with [JSONDecodeError], whose message no caller reads. *)
Definition loads (table : list (string * json)) (raising : list (string * exn))
  (s : string) : result json :=
  match assoc s table with
  | Some v => Ok v
  | None =>
      match assoc s raising with
      | Some e => Raise e
      | None => Raise (JSONDecodeError "Expecting value: line 1 column 1 (char 0)")
      end
  end.

(** Collaborators given by the two tables of [json.loads] and by the
    provider's reply. *)
Definition externals_raising (table : list (string * json))
  (raising : list (string * exn)) (reply : result GenerateContentResponse)
  : Externals :=
  {| json_loads := loads table raising;
     str_other := fun _ => "";
     build_suggestion_prompt := fun _ _ _ => "prompt";
     generate_content := fun _ => reply;
     validate_ItemAnalysis := strict_validate |}.

(** Collaborators whose [json.loads] raises nothing but [JSONDecodeError]. *)
Definition externals (table : list (string * json))
  (reply : result GenerateContentResponse) : Externals :=
  externals_raising table [] reply.

Definition text_reply (text : string) : result GenerateContentResponse :=
  Ok {| candidates := [Some [text]] |}.

(** The request item of the end-to-end example. *)
Definition gauze : ItemInput.t :=
  {| ItemInput.itemId := "A1";
     ItemInput.name := "Gauze";
     ItemInput.currentCost := 10%float;
     ItemInput.lastUsed := Some "never";
     ItemInput.catalogNo := None;
     ItemInput.category := None;
     ItemInput.unitOfMeasure := None |}.

Definition item_costing (cost : float) : ItemInput.t :=
  {| ItemInput.itemId := "A1";
     ItemInput.name := "Gauze";
     ItemInput.currentCost := cost;
     ItemInput.lastUsed := None;
     ItemInput.catalogNo := None;
     ItemInput.category := None;
     ItemInput.unitOfMeasure := None |}.

Definition suggestion_at (cost : float) : json :=
  JObj [("name", JStr "Generic Gauze"); ("estimatedCost", JFloat cost);
        ("confidence", JFloat 0.8%float); ("rationale", JStr "cheaper equivalent")].

(** The provider's answer of the end-to-end example, parsed. *)
Definition gauze_entry : json :=
  JObj [("itemId", JStr "A1"); ("name", JStr "Gauze");
        ("neverUsedFlag", JBool true);
        ("suggestions", JArr [suggestion_at 6%float]);
        ("removalSuggestion",
          JObj [("recommended", JBool true); ("reason", JStr "never used")])].

Definition request_of (items : list ItemInput.t) : SuggestionRequest.t :=
  {| SuggestionRequest.spcId := "SPC-1";
     SuggestionRequest.subGrid := "Supplies";
     SuggestionRequest.items := items;
     SuggestionRequest.procedureType := None;
     SuggestionRequest.facilityId := None |}.

(** The three texts of the extraction examples. *)
Definition items_json : string := "{" ++ dq ++ "items" ++ dq ++ ":[]}".
Definition fenced_text : string :=
  "noise ```json" ++ nl ++ items_json ++ nl ++ "``` trailing".
Definition refusal_text : string := "sorry, I cannot help".

Definition empty_items : json := JObj [("items", JArr [])].

(** Collaborators for the examples that call neither [json.loads] nor the
    provider. *)
Definition E0 : Externals := externals [] (text_reply "").

Definition invented_entry : json :=
  JObj [("itemId", JStr "ZZ9"); ("name", JStr "Invented");
        ("suggestions", JArr [])].

Definition gauze_dict : ItemDict.t :=
  {| ItemDict.itemId := JStr "A1";
     ItemDict.name := JStr "Gauze";
     ItemDict.currentCost := 10%float;
     ItemDict.lastUsed := Some "never";
     ItemDict.neverUsedFlag := JBool true;
     ItemDict.suggestions :=
       [{| SuggestionDict.suggestedItemId := JNull;
           SuggestionDict.name := JStr "Generic Gauze";
           SuggestionDict.estimatedCost := JFloat 6%float;
           SuggestionDict.costSavings := 4%float;
           SuggestionDict.savingsPercent := JFloat 40%float;
           SuggestionDict.confidence := JFloat 0.8%float;
           SuggestionDict.rationale := JStr "cheaper equivalent" |}];
     ItemDict.removalSuggestion :=
       {| RemovalDict.recommended := JBool true;
          RemovalDict.reason := JStr "never used";
          RemovalDict.actionableCheckboxId := Some "chk_A1" |} |}.

Definition gauze_answer : json :=
  JObj [("items", JArr [invented_entry; gauze_entry])].

Definition four_suggestions_entry : json :=
  JObj [("itemId", JStr "A1"); ("name", JStr "Gauze");
        ("suggestions",
          JArr [suggestion_at 6%float; suggestion_at 7%float;
                JObj [("name", JStr "Plain Gauze"); ("estimatedCost", JInt 8);
                      ("rationale", JStr "bulk pack")];
                suggestion_at 9%float])].

Definition small_saving_entry : json :=
  JObj [("itemId", JStr "A1"); ("name", JStr "Gauze");
        ("suggestions", JArr [suggestion_at 0.996%float])].

Definition never_used_entry : json :=
  JObj [("itemId", JStr "A1"); ("name", JStr "Gauze");
        ("neverUsedFlag", JBool true); ("suggestions", JArr []);
        ("removalSuggestion", JObj [("reason", JStr "never used")])].

Definition renamed_entry : json :=
  JObj [("itemId", JStr "A1"); ("name", JStr "Premium Gauze XL");
        ("suggestions", JArr [])].


Definition analysis (id : string) (savings : list float) (never recommended : bool)
  : ItemAnalysis.t :=
  {| ItemAnalysis.itemId := id;
     ItemAnalysis.name := "Gauze";
     ItemAnalysis.currentCost := 100%float;
     ItemAnalysis.lastUsed := None;
     ItemAnalysis.neverUsedFlag := never;
     ItemAnalysis.suggestions :=
       map (fun s =>
              {| AlternativeSuggestion.suggestedItemId := None;
                 AlternativeSuggestion.name := "Generic Gauze";
                 AlternativeSuggestion.estimatedCost := (100 - s)%float;
                 AlternativeSuggestion.costSavings := s;
                 AlternativeSuggestion.savingsPercent := s;
                 AlternativeSuggestion.confidence := 0.8%float;
                 AlternativeSuggestion.rationale := "cheaper equivalent" |})
           savings;
     ItemAnalysis.removalSuggestion :=
       {| RemovalSuggestion.recommended := recommended;
          RemovalSuggestion.reason := None;
          RemovalSuggestion.actionableCheckboxId := None |} |}.

Definition six_items : list ItemAnalysis.t :=
  [analysis "A1" [60%float; 20%float] false true;
   analysis "A2" [50%float] false false;
   analysis "A3" [] true true;
   analysis "A4" [10%float; 70%float] false false;
   analysis "A5" [] false false;
   analysis "A6" [80%float] true true].

(** Items whose best saving is not among the first two suggestions. *)
Definition ranked_savings : list ItemAnalysis.t :=
  [analysis "A1" [20%float; 10%float; 90%float] false false;
   analysis "A2" [] true false;
   analysis "A3" [5.5%float; 7.25%float] false false].

(** Two items whose best savings add up to more than the largest float. *)
Definition overflowing_savings : list ItemAnalysis.t :=
  [analysis "A1" [1e308%float] false false;
   analysis "A2" [1e308%float] false false].

Definition no_rationale_entry : json :=
  JObj [("itemId", JStr "A1"); ("name", JStr "Gauze");
        ("suggestions",
          JArr [JObj [("name", JStr "Generic Gauze");
                      ("estimatedCost", JFloat 6%float)]])].

Definition no_rationale_answer : json :=
  JObj [("items", JArr [no_rationale_entry])].

(** Collaborators whose provider answers the text ["ANSWER"], which
    [json.loads] maps to the object given. *)
Definition answering (parsed : json) : Externals :=
  externals [("ANSWER", parsed)] (text_reply "ANSWER").

(** Collaborators of the extraction examples. *)
Definition E_items : Externals :=
  externals [(items_json, empty_items)]
    (text_reply fenced_text).

(** An integer literal of 4301 digits, one more than [int] converts from a
    [str], and the exception that [json.loads] raises on it. *)
Fixpoint ones (n : nat) : string :=
  match n with
  | O => ""
  | S n' => String "1" (ones n')
  end.

Definition long_integer : string := ones 4301.

Definition int_limit_error : exn :=
  ValueError "Exceeds the limit (4300 digits) for integer string conversion: value has 4301 digits; use sys.set_int_max_str_digits() to increase the limit".

(** The literal followed by a fenced block that holds an object. *)
Definition long_integer_then_fence : string :=
  long_integer ++ " ```json" ++ nl ++ items_json ++ nl ++ "```".

(** The literal as a member of an object, in prose. *)
Definition long_integer_object : string :=
  "{" ++ dq ++ "n" ++ dq ++ ":" ++ long_integer ++ "}".

Definition long_integer_in_prose : string :=
  "Total: " ++ long_integer_object ++ " - done".

(** 2000 opening brackets, and the exception that [json.loads] raises on
    them. *)
Fixpoint brackets (n : nat) : string :=
  match n with
  | O => ""
  | S n' => String "[" (brackets n')
  end.

Definition deep_brackets : string := brackets 2000.

Definition recursion_error : exn :=
  RecursionError "maximum recursion depth exceeded while decoding a JSON array from a unicode string".

(** Collaborators whose [json.loads] meets the literal and the brackets. *)
Definition E_limit : Externals :=
  externals_raising [(items_json, empty_items)]
    [(long_integer, int_limit_error);
     (long_integer_then_fence, int_limit_error);
     (long_integer_object, int_limit_error);
     (deep_brackets, recursion_error)]
    (text_reply long_integer_then_fence).

End Fixture.

(* ================================================================== *)
(** ** Outcomes of a request, and further inputs for the examples *)

Module Behaviour.

Import GeminiService.

(** [part] is a contiguous part of [text]. *)
Definition part_of (part text : string) : Prop :=
  exists before after, text = before ++ part ++ after.

(** A parsed answer whose item list is [entries]. *)
Definition answer_with (entries : list json) : json :=
  JObj [("items", JArr entries)].

(** The objects that a [float] can be subtracted from: a [float], a
    [bool], and an [int] that converts to a [float]. *)
Definition is_number (v : json) : bool :=
  match v with
  | JFloat _ | JBool _ => true
  | JInt z => match PyFloat.of_int z with Ok _ => true | Raise _ => false end
  | _ => false
  end.

(** What the summary reads of an analysed item. *)
Definition summary_view (item : ItemAnalysis.t) : list float * bool :=
  (map AlternativeSuggestion.costSavings (ItemAnalysis.suggestions item),
   ItemAnalysis.neverUsedFlag item).

Section WithExternals.

Context {E : Externals}.

(** The prompt that the endpoint sends for [request]. *)
Definition prompt_of (request : SuggestionRequest.t) : string :=
  build_suggestion_prompt (SuggestionRequest.items request)
    (SuggestionRequest.subGrid request)
    (SuggestionRequest.procedureType request).

(** [request] passes the two checks on the number of items. *)
Definition accepted (request : SuggestionRequest.t) : Prop :=
  SuggestionRequest.items request <> []
  /\ (List.length (SuggestionRequest.items request) <= 50)%nat.

(** The provider answered [request] with [text] in the first part of its
    first candidate. *)
Definition answered_with (request : SuggestionRequest.t) (text : string) : Prop :=
  exists response parts others,
    generate_content (prompt_of request) = Ok response
    /\ candidates response = Some (text :: parts) :: others.

(** The ways in which an accepted request ends with a [ValueError]:
    the provider call raises one, the answer has no candidate, the first
    candidate has no content or no part, the extractor raises one (its
    own when no strategy extracts an object, or one of [json.loads] that
    is not a [JSONDecodeError]), or a projected record is rejected by the
    response model. *)
Inductive unprocessable (request : SuggestionRequest.t) : string -> Prop :=
| provider_value_error e :
    generate_content (prompt_of request) = Raise e ->
    is_ValueError e = true -> is_JSONDecodeError e = false ->
    unprocessable request (str_exn e)
| no_candidates response :
    generate_content (prompt_of request) = Ok response ->
    candidates response = [] ->
    unprocessable request
      "Gemini returned empty response - request may have been blocked by safety filters"
| no_content response candidate others :
    generate_content (prompt_of request) = Ok response ->
    candidates response = candidate :: others ->
    candidate = None \/ candidate = Some [] ->
    unprocessable request
      "Gemini returned no content - request blocked by safety filters"
| not_extracted text e :
    answered_with request text ->
    _extract_json text = Raise e ->
    is_ValueError e = true ->
    unprocessable request (str_exn e)
| invalid_record text parsed dicts msg :
    answered_with request text ->
    _extract_json text = Ok parsed ->
    _process_gemini_response parsed (SuggestionRequest.items request) = Ok dicts ->
    mapM Main.validate dicts = Raise (ValidationError msg) ->
    unprocessable request msg.

End WithExternals.

(** An entry with the two keys that the projector requires. *)
Definition bare_entry : json :=
  JObj [("itemId", JStr "A1"); ("name", JStr "Gauze")].

Definition null_removal_entry : json :=
  JObj [("itemId", JStr "A1"); ("name", JStr "Gauze");
        ("removalSuggestion", JNull)].

Definition null_suggestions_entry : json :=
  JObj [("itemId", JStr "A1"); ("name", JStr "Gauze");
        ("suggestions", JNull)].

Definition gauze_request : SuggestionRequest.t := Fixture.request_of [Fixture.gauze].

(** Collaborators whose provider call ends as [reply] says. *)
Definition replying (reply : result GenerateContentResponse) : Externals :=
  Fixture.externals [("[]", JArr []); ("{}", JObj [])] reply.

(** The summary of an empty list of analysed items. *)
Definition empty_summary : string :=
  "Analyzed 0 items. Found cost-saving alternatives for 0 items with potential savings of $0.00. Identified 0 never-used items recommended for removal.".

End Behaviour.

(* ================================================================== *)
(** * Properties *)

Import GeminiService.

(* ================================================================== *)
(** ** 12. The result monad and the loops *)

Section Monad.

Context {A B : Type}.

Lemma bind_Ok (c : result A) (k : A -> result B) (b : B) :
  bind c k = Ok b -> exists a, c = Ok a /\ k a = Ok b.
Proof.
  destruct c as [a|e]; simpl; intros H; [eauto | discriminate].
Qed.

Lemma bind_Raise (c : result A) (k : A -> result B) (e : exn) :
  bind c k = Raise e -> c = Raise e \/ exists a, c = Ok a /\ k a = Raise e.
Proof.
  destruct c as [a|e']; simpl; intros H; [right; eauto | left; congruence].
Qed.

End Monad.

Section MapM.

Context {A B : Type}.

Lemma mapM_Forall2 (f : A -> result B) (l : list A) (l' : list B) :
  mapM f l = Ok l' -> Forall2 (fun x y => f x = Ok y) l l'.
Proof.
  revert l'; induction l as [|x l IH]; simpl; intros l' H.
  - injection H as <-. constructor.
  - apply bind_Ok in H as (y & Hy & H).
    apply bind_Ok in H as (ys & Hys & H).
    injection H as <-. constructor; auto.
Qed.

Lemma mapM_In_Raise (f : A -> result B) (l : list A) (x : A) :
  In x l -> (exists e, f x = Raise e) -> exists e, mapM f l = Raise e.
Proof.
  intros Hin [e He]. induction l as [|y l IH]; [contradiction|].
  simpl. destruct Hin as [-> | Hin].
  - rewrite He. simpl. eauto.
  - destruct (f y) as [b|e']; simpl; [|eauto].
    destruct (IH Hin) as [e' ->]. simpl. eauto.
Qed.

Lemma mapM_Raise (f : A -> result B) (l : list A) (e : exn) :
  mapM f l = Raise e -> exists x, In x l /\ f x = Raise e.
Proof.
  induction l as [|y l IH]; simpl; intros H; [discriminate|].
  apply bind_Raise in H as [H | (b & Hb & H)].
  - eauto.
  - apply bind_Raise in H as [H | (bs & Hbs & H)]; [|discriminate].
    destruct (IH H) as (x & Hx & Hfx). eauto.
Qed.

End MapM.

(** Splitting a hypothesis [x <- c ;; k = Ok v] into its steps. *)
Ltac bind_inv H :=
  let a := fresh "v" in
  let Ha := fresh "Hstep" in
  apply bind_Ok in H as (a & Ha & H).

(* ================================================================== *)
(** ** 13. Subscripts and [get] on the model's objects *)

Lemma getitem_JObj (d : list (string * json)) (k : string) (v : json) :
  getitem (JObj d) k = Ok v <-> lookup k d = Some v.
Proof.
  simpl. destruct (lookup k d); split; intros H; inversion H; reflexivity.
Qed.

Lemma getitem_Ok_dict (v : json) (k : string) (x : json) :
  getitem v k = Ok x -> exists d, v = JObj d /\ lookup k d = Some x.
Proof.
  destruct v; simpl; try discriminate.
  intros H. exists d. split; [reflexivity|].
  destruct (lookup k d); inversion H; reflexivity.
Qed.

Lemma get_JObj (d : list (string * json)) (k : string) (default : json) :
  get (JObj d) k default =
  Ok (match lookup k d with Some x => x | None => default end).
Proof. simpl. destruct (lookup k d); reflexivity. Qed.

Lemma getitem_not_ValueError (v : json) (k : string) (e : exn) :
  getitem v k = Raise e -> is_ValueError e = false.
Proof.
  destruct v; simpl; try (intros H; injection H as <-; reflexivity).
  destruct (lookup k d); intros H; inversion H; reflexivity.
Qed.

Lemma get_not_ValueError (v : json) (k : string) (default : json) (e : exn) :
  get v k default = Raise e -> is_ValueError e = false.
Proof.
  destruct v; simpl; try (intros H; injection H as <-; reflexivity).
  destruct (lookup k d); discriminate.
Qed.

Lemma of_int_not_ValueError (z : Z) (e : exn) :
  PyFloat.of_int z = Raise e -> is_ValueError e = false.
Proof.
  unfold PyFloat.of_int.
  destruct (binary_normalize prec emax z 0 false); intros H; inversion H; reflexivity.
Qed.

Lemma float_sub_not_ValueError (x : float) (v : json) (e : exn) :
  float_sub x v = Raise e -> is_ValueError e = false.
Proof.
  destruct v; simpl; try (intros H; injection H as <-; reflexivity); try discriminate.
  intros H. apply bind_Raise in H as [H | (y & _ & H)]; [|discriminate].
  eapply of_int_not_ValueError; eauto.
Qed.

Lemma iter_first3_not_ValueError (v : json) (e : exn) :
  iter_first3 v = Raise e -> is_ValueError e = false.
Proof.
  destruct v; simpl; try (intros H; injection H as <-; reflexivity); discriminate.
Qed.

(* ================================================================== *)
(** ** 14. The projector, step by step *)

Section Projector.

Context {E : Externals}.

Lemma str_eq_true (s : string) (v : json) :
  str_eq s v = true -> v = JStr s.
Proof.
  destruct v; simpl; try discriminate.
  intros H. apply String.eqb_eq in H. congruence.
Qed.

Lemma find_original_Some (os : list ItemInput.t) (entry : json) (o : ItemInput.t) :
  find_original os entry = Ok (Some o) ->
  In o os /\ getitem entry "itemId" = Ok (JStr (ItemInput.itemId o)).
Proof.
  induction os as [|i os IH]; simpl; intros H; [discriminate|].
  bind_inv H.
  destruct (str_eq (ItemInput.itemId i) v) eqn:Heq.
  - injection H as <-. apply str_eq_true in Heq. subst v. auto.
  - destruct (IH H) as [Hin Hid]. auto.
Qed.

Lemma find_original_None (os : list ItemInput.t) (entry v : json) :
  getitem entry "itemId" = Ok v ->
  (forall o, In o os -> str_eq (ItemInput.itemId o) v = false) ->
  find_original os entry = Ok None.
Proof.
  intros Hv. induction os as [|i os IH]; simpl; intros Hno; [reflexivity|].
  rewrite Hv. simpl. rewrite (Hno i) by auto. apply IH. auto.
Qed.

Lemma find_original_matched (os : list ItemInput.t) (d : list (string * json))
  (o : ItemInput.t) :
  In o os -> lookup "itemId" d = Some (JStr (ItemInput.itemId o)) ->
  exists o', find_original os (JObj d) = Ok (Some o').
Proof.
  intros Hin Hid. induction os as [|i os IH]; [contradiction|].
  simpl. rewrite Hid. simpl.
  destruct (String.eqb (ItemInput.itemId i) (ItemInput.itemId o)) eqn:Heq.
  - eauto.
  - destruct Hin as [-> | Hin].
    + rewrite String.eqb_refl in Heq. discriminate.
    + auto.
Qed.

Lemma find_original_not_ValueError (os : list ItemInput.t) (entry : json) (e : exn) :
  find_original os entry = Raise e -> is_ValueError e = false.
Proof.
  induction os as [|i os IH]; simpl; intros H; [discriminate|].
  apply bind_Raise in H as [H | (v & _ & H)].
  - eapply getitem_not_ValueError; eauto.
  - destruct (str_eq (ItemInput.itemId i) v); [discriminate | auto].
Qed.

(** What a successful turn of the suggestions loop has computed. *)
Lemma process_suggestion_Ok (c : float) (sugg : json) (d : SuggestionDict.t) :
  process_suggestion c sugg = Ok d -> Spec.projected_suggestion c sugg d.
Proof.
  unfold process_suggestion. intros H.
  apply bind_Ok in H as (estimated & Hest & H).
  apply bind_Ok in H as (difference & Hdiff & H).
  apply bind_Ok in H as (name & Hname & H).
  apply bind_Ok in H as (estimated' & Hest' & H).
  apply bind_Ok in H as (confidence & Hconf & H).
  apply bind_Ok in H as (rationale & Hrat & H).
  injection H as <-.
  exists estimated, difference. simpl.
  repeat split; try assumption; try congruence.
  destruct (PyFloat.gt c PrimFloat.zero); reflexivity.
Qed.

Lemma process_suggestion_not_ValueError (c : float) (sugg : json) (e : exn) :
  process_suggestion c sugg = Raise e -> is_ValueError e = false.
Proof.
  unfold process_suggestion. intros H.
  repeat
    match type of H with
    | bind (getitem _ _) _ = Raise _ =>
        apply bind_Raise in H as [H | (? & _ & H)];
        [eapply getitem_not_ValueError; eassumption|]
    | bind (get _ _ _) _ = Raise _ =>
        apply bind_Raise in H as [H | (? & _ & H)];
        [eapply get_not_ValueError; eassumption|]
    | bind (float_sub _ _) _ = Raise _ =>
        apply bind_Raise in H as [H | (? & _ & H)];
        [eapply float_sub_not_ValueError; eassumption|]
    end.
  discriminate.
Qed.

(** A dict that lacks a required key stops the loop with an exception. *)
Lemma process_suggestion_lacking (c : float) (sugg : json) :
  Spec.lacks_required_field sugg -> exists e, process_suggestion c sugg = Raise e.
Proof.
  intros (d & k & -> & Hk & Hnone).
  unfold process_suggestion.
  destruct (getitem (JObj d) "estimatedCost") as [est|e] eqn:Hest;
    cbn [bind]; [|eauto].
  destruct (float_sub c est) as [x|e]; cbn [bind]; [|eauto].
  destruct (getitem (JObj d) "name") as [n|e] eqn:Hname; cbn [bind]; [|eauto].
  rewrite get_JObj. cbn [bind].
  destruct (getitem (JObj d) "rationale") as [r|e] eqn:Hrat; cbn [bind]; [|eauto].
  apply getitem_JObj in Hest, Hname, Hrat.
  simpl in Hk. destruct Hk as [<- | [<- | [<- | []]]]; congruence.
Qed.

(** What a turn of the items loop that appends a record has computed. *)
Lemma process_item_Some (os : list ItemInput.t) (entry : json) (out : ItemDict.t) :
  process_item os entry = Ok (Some out) ->
  exists o sv first3 removal,
    find_original os entry = Ok (Some o)
    /\ get entry "suggestions" (JArr []) = Ok sv
    /\ iter_first3 sv = Ok first3
    /\ mapM (process_suggestion (ItemInput.currentCost o)) first3
       = Ok (ItemDict.suggestions out)
    /\ get entry "neverUsedFlag" (JBool false) = Ok (ItemDict.neverUsedFlag out)
    /\ get entry "removalSuggestion" (JObj []) = Ok removal
    /\ getitem entry "itemId" = Ok (ItemDict.itemId out)
    /\ getitem entry "name" = Ok (ItemDict.name out)
    /\ ItemDict.currentCost out = ItemInput.currentCost o
    /\ ItemDict.lastUsed out = ItemInput.lastUsed o
    /\ get removal "recommended" (ItemDict.neverUsedFlag out)
       = Ok (RemovalDict.recommended (ItemDict.removalSuggestion out))
    /\ get removal "reason" JNull
       = Ok (RemovalDict.reason (ItemDict.removalSuggestion out))
    /\ exists flag,
         get removal "recommended" JNull = Ok flag
         /\ RemovalDict.actionableCheckboxId (ItemDict.removalSuggestion out)
            = (if truthy flag then Some ("chk_" ++ ItemInput.itemId o) else None).
Proof.
  unfold process_item. intros H.
  apply bind_Ok in H as ([o|] & Hfind & H).
  2:{ apply bind_Ok in H as (? & _ & H). discriminate. }
  apply bind_Ok in H as (sv & Hsv & H).
  apply bind_Ok in H as (first3 & Hfirst & H).
  apply bind_Ok in H as (suggs & Hsuggs & H).
  apply bind_Ok in H as (never & Hnever & H).
  apply bind_Ok in H as (removal & Hrem & H).
  apply bind_Ok in H as (itemId & Hid & H).
  apply bind_Ok in H as (name & Hname & H).
  apply bind_Ok in H as (recommended & Hrec & H).
  apply bind_Ok in H as (reason & Hreason & H).
  apply bind_Ok in H as (flag & Hflag & H).
  apply bind_Ok in H as (checkbox & Hchk & H).
  injection H as <-. simpl.
  exists o, sv, first3, removal.
  repeat (split; [assumption || reflexivity|]).
  exists flag. split; [assumption|].
  destruct (find_original_Some _ _ _ Hfind) as [_ Hid'].
  destruct (truthy flag).
  - rewrite Hid' in Hchk. simpl in Hchk. congruence.
  - congruence.
Qed.

Lemma process_item_not_ValueError (os : list ItemInput.t) (entry : json) (e : exn) :
  process_item os entry = Raise e -> is_ValueError e = false.
Proof.
  unfold process_item. intros H.
  apply bind_Raise in H as [H | ([o|] & _ & H)].
  { eapply find_original_not_ValueError; eauto. }
  2:{ apply bind_Raise in H as [H | (? & _ & H)]; [|discriminate].
      eapply get_not_ValueError; eauto. }
  repeat
    match type of H with
    | bind (getitem _ _) _ = Raise _ =>
        apply bind_Raise in H as [H | (? & _ & H)];
        [eapply getitem_not_ValueError; eassumption|]
    | bind (get _ _ _) _ = Raise _ =>
        apply bind_Raise in H as [H | (? & _ & H)];
        [eapply get_not_ValueError; eassumption|]
    | bind (iter_first3 _) _ = Raise _ =>
        apply bind_Raise in H as [H | (? & _ & H)];
        [eapply iter_first3_not_ValueError; eassumption|]
    | bind (mapM _ _) _ = Raise _ =>
        apply bind_Raise in H as [H | (? & _ & H)];
        [apply mapM_Raise in H as (? & _ & H);
         eapply process_suggestion_not_ValueError; eassumption|]
    end.
  apply bind_Raise in H as [H | (? & _ & H)]; [|discriminate].
  match type of H with
  | (if ?b then _ else _) = _ => destruct b; [|discriminate]
  end.
  apply bind_Raise in H as [H | (? & _ & H)]; [|discriminate].
  eapply getitem_not_ValueError; eauto.
Qed.


Lemma process_items_Ok (os : list ItemInput.t) (entries : list json)
  (acc out : list ItemDict.t) :
  process_items os entries acc = Ok out ->
  exists rs, mapM (process_item os) entries = Ok rs
             /\ out = (acc ++ flat_map Spec.appended rs)%list.
Proof.
  revert acc; induction entries as [|entry entries IH]; simpl; intros acc H.
  - injection H as <-. exists []. simpl. rewrite app_nil_r. auto.
  - apply bind_Ok in H as (r & Hr & H). rewrite Hr. simpl.
    destruct r as [d|]; apply IH in H as (rs & -> & ->); simpl.
    + exists (Some d :: rs). simpl. rewrite <- app_assoc. auto.
    + exists (None :: rs). auto.
Qed.

Lemma process_items_In (os : list ItemInput.t) (entries : list json)
  (out : list ItemDict.t) (d : ItemDict.t) :
  process_items os entries [] = Ok out -> In d out ->
  exists entry, In entry entries /\ process_item os entry = Ok (Some d).
Proof.
  intros H Hin. apply process_items_Ok in H as (rs & Hrs & ->).
  simpl in Hin. apply in_flat_map in Hin as (r & Hr & Hd).
  destruct r as [d'|]; simpl in Hd; [|contradiction].
  destruct Hd as [-> | []].
  apply mapM_Forall2 in Hrs.
  clear - Hrs Hr. induction Hrs as [|entry r entries rs Hentry _ IH]; [contradiction|].
  destruct Hr as [-> | Hr].
  - exists entry. simpl; auto.
  - destruct (IH Hr) as (entry' & Hin' & H'). exists entry'. simpl; auto.
Qed.

Lemma process_items_not_ValueError (os : list ItemInput.t) (entries : list json)
  (acc : list ItemDict.t) (e : exn) :
  process_items os entries acc = Raise e -> is_ValueError e = false.
Proof.
  revert acc; induction entries as [|entry entries IH]; simpl; intros acc H;
    [discriminate|].
  apply bind_Raise in H as [H | (r & _ & H)].
  - eapply process_item_not_ValueError; eauto.
  - destruct r; eapply IH; eauto.
Qed.

Lemma process_items_In_Raise (os : list ItemInput.t) (entries : list json)
  (acc : list ItemDict.t) (entry : json) :
  In entry entries -> (exists e, process_item os entry = Raise e) ->
  exists e, process_items os entries acc = Raise e.
Proof.
  intros Hin [e He]. revert acc.
  induction entries as [|x entries IH]; intros acc; [contradiction|].
  simpl. destruct Hin as [-> | Hin].
  - rewrite He. simpl. eauto.
  - destruct (process_item os x) as [[d|]|e']; simpl; eauto.
Qed.

Lemma len_not_ValueError (v : json) (e : exn) :
  len v = Raise e -> is_ValueError e = false.
Proof.
  destruct v; simpl; try (intros H; injection H as <-; reflexivity); discriminate.
Qed.

Lemma iter_not_ValueError (v : json) (e : exn) :
  iter v = Raise e -> is_ValueError e = false.
Proof.
  destruct v; simpl; try (intros H; injection H as <-; reflexivity); discriminate.
Qed.

(** No exception that leaves the projector is a [ValueError]. *)
Lemma projector_not_ValueError (parsed : json) (os : list ItemInput.t) (e : exn) :
  _process_gemini_response parsed os = Raise e -> is_ValueError e = false.
Proof.
  unfold _process_gemini_response. intros H.
  apply bind_Raise in H as [H | (v & _ & H)].
  { eapply get_not_ValueError; eauto. }
  apply bind_Raise in H as [H | (n & _ & H)].
  { eapply len_not_ValueError; eauto. }
  apply bind_Raise in H as [H | (entries & _ & H)].
  { eapply iter_not_ValueError; eauto. }
  eapply process_items_not_ValueError; eauto.
Qed.

Lemma projector_Ok (parsed : json) (os : list ItemInput.t) (out : list ItemDict.t) :
  _process_gemini_response parsed os = Ok out ->
  exists v entries,
    get parsed "items" (JArr []) = Ok v /\ iter v = Ok entries
    /\ process_items os entries [] = Ok out.
Proof.
  unfold _process_gemini_response. intros H.
  apply bind_Ok in H as (v & Hv & H).
  apply bind_Ok in H as (n & _ & H).
  apply bind_Ok in H as (entries & Hentries & H).
  eauto.
Qed.

(** Every returned record was appended by the turn of one model entry. *)
Lemma projector_record_origin (parsed : json) (os : list ItemInput.t)
  (out : list ItemDict.t) (d : ItemDict.t) :
  _process_gemini_response parsed os = Ok out -> In d out ->
  exists entry,
    Spec.model_entry parsed entry /\ process_item os entry = Ok (Some d).
Proof.
  intros H Hin.
  apply projector_Ok in H as (v & entries & Hv & Hentries & H).
  destruct (process_items_In _ _ _ _ H Hin) as (entry & Hentry & Hd).
  exists entry. split; [|exact Hd].
  exists v, entries. auto.
Qed.

End Projector.

(* ================================================================== *)
(** ** 15. Strings *)

Lemma append_assoc (a b c : string) : (a ++ b) ++ c = a ++ (b ++ c).
Proof. induction a as [|x a IH]; simpl; congruence. Qed.

Lemma length_append (a b : string) :
  String.length (a ++ b) = (String.length a + String.length b)%nat.
Proof. induction a as [|x a IH]; simpl; congruence. Qed.

Lemma substring_prefix (a b : string) :
  substring 0 (String.length a) (a ++ b) = a.
Proof.
  induction a as [|x a IH]; simpl.
  - destruct b; reflexivity.
  - rewrite IH. reflexivity.
Qed.

Lemma captured_prefix (a b : string) :
  substring 0 (String.length (a ++ b) - String.length b) (a ++ b) = a.
Proof.
  rewrite length_append.
  replace (String.length a + String.length b - String.length b)%nat
    with (String.length a) by lia.
  apply substring_prefix.
Qed.


(* ================================================================== *)
(** ** 16. The matcher finds matches of the pattern *)

Lemma lit_Some (s t t' : string) : Re.lit s t = Some t' -> t = s ++ t'.
Proof.
  revert t; induction s as [|c s IH]; simpl; intros t H.
  - congruence.
  - destruct t as [|d t]; [discriminate|].
    destruct (Ascii.eqb c d) eqn:Hcd; [|discriminate].
    apply Ascii.eqb_eq in Hcd. subst d. rewrite (IH t H). reflexivity.
Qed.


Section MatcherSound.

Context {R : Type}.

Lemma starG_Some (p : ascii -> bool) (k : string -> option R) (t : string) (x : R) :
  Re.starG p k t = Some x ->
  exists s t', t = s ++ t' /\ Spec.all_chars p s = true /\ k t' = Some x.
Proof.
  induction t as [|c t IH]; simpl; intros H.
  - exists "", "". auto.
  - destruct (p c) eqn:Hc.
    + destruct (Re.starG p k t) as [y|] eqn:Hrec.
      * injection H as ->.
        destruct (IH eq_refl) as (s & t' & -> & Hs & Hk).
        exists (String c s), t'. simpl. rewrite Hc, Hs. auto.
      * exists "", (String c t). auto.
    + exists "", (String c t). auto.
Qed.

Lemma starL_Some (p : ascii -> bool) (k : string -> option R) (t : string) (x : R) :
  Re.starL p k t = Some x ->
  exists s t', t = s ++ t' /\ Spec.all_chars p s = true /\ k t' = Some x.
Proof.
  induction t as [|c t IH]; simpl; intros H.
  - destruct (k "") eqn:Hk; [|discriminate].
    exists "", "". rewrite Hk. auto.
  - destruct (k (String c t)) eqn:Hk.
    + exists "", (String c t). rewrite Hk. auto.
    + destruct (p c) eqn:Hc; [|discriminate].
      destruct (IH H) as (s & t' & -> & Hs & Hk').
      exists (String c s), t'. simpl. rewrite Hc, Hs. auto.
Qed.

Lemma matches_Some (r : Re.regex) :
  forall (t : string) (g : option string)
         (k : string -> option string -> option R) (x : R),
    Re.matches r t g k = Some x ->
    exists s t' g', t = s ++ t' /\ Spec.Lang r s g g' /\ k t' g' = Some x.
Proof.
  induction r as [s|r IH|p|p|r1 IH1 r2 IH2|r IH]; intros t g k x H; simpl in H.
  - destruct (Re.lit s t) as [t'|] eqn:Hlit; [|discriminate].
    apply lit_Some in Hlit. exists s, t', g. split; [|split]; auto. constructor.
  - destruct (Re.matches r t g k) as [y|] eqn:Hr.
    + injection H as ->.
      destruct (IH _ _ _ _ Hr) as (s & t' & g' & -> & HL & Hk).
      exists s, t', g'. split; [|split]; auto. apply Spec.Lang_Opt_some. exact HL.
    + exists "", t, g. split; [|split]; auto. apply Spec.Lang_Opt_none.
  - apply starG_Some in H as (s & t' & -> & Hs & Hk).
    exists s, t', g. split; [|split]; auto. constructor. exact Hs.
  - apply starL_Some in H as (s & t' & -> & Hs & Hk).
    exists s, t', g. split; [|split]; auto. constructor. exact Hs.
  - apply IH1 in H as (s1 & t1 & g1 & -> & HL1 & H).
    apply IH2 in H as (s2 & t2 & g2 & -> & HL2 & H).
    exists (s1 ++ s2), t2, g2. rewrite append_assoc.
    split; [|split]; auto. econstructor; eauto.
  - apply IH in H as (s & t' & g' & -> & HL & H).
    rewrite captured_prefix in H.
    exists s, t', (Some s). split; [|split]; auto. econstructor; eauto.
Qed.

End MatcherSound.

Lemma search_Some (r : Re.regex) (text : string) (g : option string) :
  Re.search r text = Some g ->
  exists pre s post, text = pre ++ s ++ post /\ Spec.Lang r s None g.
Proof.
  induction text as [|c text IH]; simpl; intros H.
  - destruct (Re.matches r "" None (fun _ g0 => Some g0)) as [g0|] eqn:Hm;
      [|discriminate].
    injection H as ->.
    apply matches_Some in Hm as (s & t' & g' & Ht & HL & Hk).
    injection Hk as ->. exists "", s, t'. auto.
  - destruct (Re.matches r (String c text) None (fun _ g0 => Some g0))
      as [g0|] eqn:Hm.
    + injection H as ->.
      apply matches_Some in Hm as (s & t' & g' & Ht & HL & Hk).
      injection Hk as ->. exists "", s, t'. auto.
    + destruct (IH H) as (pre & s & post & -> & HL).
      exists (String c pre), s, post. auto.
Qed.

(** What the service's pattern matches: a fenced block, whose interior is
    the captured group. *)
Lemma fence_pattern_Lang (s : string) (g : option string) :
  Spec.Lang GeminiService.fence_pattern s None g ->
  exists tag ws1 mid ws2,
    s = "```" ++ tag ++ ws1 ++ ("{" ++ mid ++ "}") ++ ws2 ++ "```"
    /\ (tag = "" \/ tag = "json")
    /\ Spec.all_chars Str.is_space ws1 = true
    /\ Spec.all_chars Str.is_space ws2 = true
    /\ g = Some ("{" ++ mid ++ "}").
Proof.
  unfold GeminiService.fence_pattern. intros H.
  repeat
    match goal with
    | H : Spec.Lang (Re.Cat _ _) _ _ _ |- _ => inversion H; subst; clear H
    | H : Spec.Lang (Re.Lit _) _ _ _ |- _ => inversion H; subst; clear H
    | H : Spec.Lang (Re.Grp _) _ _ _ |- _ => inversion H; subst; clear H
    | H : Spec.Lang (Re.StarG _) _ _ _ |- _ => inversion H; subst; clear H
    | H : Spec.Lang (Re.StarL _) _ _ _ |- _ => inversion H; subst; clear H
    end.
  match goal with
  | H : Spec.Lang (Re.Opt _) ?tag _ _ |- _ =>
      exists tag; inversion H; subst; clear H
  end.
  - match goal with
    | H : Spec.Lang (Re.Lit _) _ _ _ |- _ => inversion H; subst; clear H
    end.
    do 3 eexists. repeat split; eauto.
  - do 3 eexists. repeat split; eauto.
Qed.

Lemma search_fence (text : string) (g : option string) :
  Re.search GeminiService.fence_pattern text = Some g ->
  exists body, g = Some body /\ Spec.fenced_in text body.
Proof.
  intros H. apply search_Some in H as (pre & s & post & -> & HL).
  apply fence_pattern_Lang in HL
    as (tag & ws1 & mid & ws2 & -> & Htag & Hws1 & Hws2 & ->).
  exists ("{" ++ mid ++ "}"). split; [reflexivity|].
  exists pre, tag, ws1, mid, ws2, post.
  repeat split; auto.
  rewrite !append_assoc. reflexivity.
Qed.

(* ================================================================== *)
(** ** 17. The matcher finds the fenced block *)

Section MatcherComplete.

Context {R : Type}.




End MatcherComplete.








(* ================================================================== *)
(** ** 18. [strip], [find], [rfind]; the trimmed text and the span of the braces *)







Lemma rfind_absent (c : ascii) (s : string) :
  Spec.all_chars (Spec.other_than c) s = true -> Str.rfind c s = -1.
Proof.
  induction s as [|x s IH]; cbn [Spec.all_chars Str.rfind]; [reflexivity|].
  intros H. apply andb_prop in H as [Hx H].
  unfold Spec.other_than in Hx. rewrite (IH H). cbn.
  destruct (Ascii.eqb x c); [discriminate | reflexivity].
Qed.

Lemma find_first (c : ascii) (a rest : string) :
  Spec.all_chars (Spec.other_than c) a = true ->
  Str.find c (a ++ String c rest) = Z.of_nat (String.length a).
Proof.
  induction a as [|x a IH]; cbn [Spec.all_chars append Str.find String.length].
  - intros _. rewrite Ascii.eqb_refl. reflexivity.
  - intros H. apply andb_prop in H as [Hx H].
    unfold Spec.other_than in Hx. destruct (Ascii.eqb x c); [discriminate|].
    rewrite (IH H).
    destruct (Z.eqb_spec (Z.of_nat (String.length a)) (-1)); lia.
Qed.

Lemma rfind_last (c : ascii) (x b : string) :
  Spec.all_chars (Spec.other_than c) b = true ->
  Str.rfind c (x ++ String c b) = Z.of_nat (String.length x).
Proof.
  intros Hb. induction x as [|y x IH]; cbn [append Str.rfind String.length].
  - rewrite (rfind_absent c b Hb), Ascii.eqb_refl. reflexivity.
  - rewrite IH.
    destruct (Z.eqb_spec (Z.of_nat (String.length x)) (-1)); lia.
Qed.

Lemma substring_skip (a s : string) (m : nat) :
  substring (String.length a) m (a ++ s) = substring 0 m s.
Proof.
  induction a as [|x a IH]; cbn [append String.length]; [reflexivity|].
  cbn [substring]. exact IH.
Qed.

Lemma slice_middle (a body b : string) :
  Str.slice (Z.of_nat (String.length a))
    (Z.of_nat (String.length a + String.length body)) (a ++ body ++ b)
  = body.
Proof.
  unfold Str.slice. rewrite Nat2Z.id.
  replace (Z.to_nat (Z.of_nat (String.length a + String.length body)
                     - Z.of_nat (String.length a)))
    with (String.length body) by lia.
  rewrite substring_skip. apply substring_prefix.
Qed.

Lemma braces_reassoc (a inner b : string) :
  (a ++ "{" ++ inner) ++ String "}" b = a ++ ("{" ++ inner ++ "}") ++ b.
Proof.
  induction a as [|x a IH]; simpl; [|f_equal; exact IH].
  f_equal. induction inner as [|y inner IH]; simpl;
    [reflexivity | f_equal; exact IH].
Qed.















(** Where the braces are found in a text with an outermost pair. *)
Lemma braces_located (a inner b : string) :
  Spec.all_chars (Spec.other_than "{") a = true ->
  Spec.all_chars (Spec.other_than "}") b = true ->
  let text := a ++ ("{" ++ inner ++ "}") ++ b in
  let i := Str.find "{" text in
  let j := Str.rfind "}" text in
  negb (i =? -1) && negb (j =? -1) && (i <? j) = true
  /\ Str.slice i (j + 1) text = "{" ++ inner ++ "}".
Proof.
  intros Ha Hb text i j.
  assert (Hfirst : i = Z.of_nat (String.length a)).
  { apply (find_first "{" a ((inner ++ "}") ++ b) Ha). }
  assert (Hlast : j = Z.of_nat (String.length (a ++ "{" ++ inner))).
  { unfold j, text. rewrite <- braces_reassoc. apply rfind_last. exact Hb. }
  set (body := "{" ++ inner ++ "}").
  assert (Hlen : j + 1 = Z.of_nat (String.length a + String.length body)).
  { rewrite Hlast. unfold body. rewrite !length_append. cbn [String.length]. lia. }
  assert (Hlt : i < j).
  { rewrite Hfirst, Hlast, !length_append. cbn [String.length]. lia. }
  split.
  - destruct (Z.eqb_spec i (-1)); [lia|].
    destruct (Z.eqb_spec j (-1)); [lia|].
    destruct (Z.ltb_spec i j); [reflexivity | lia].
  - rewrite Hlen, Hfirst. apply slice_middle.
Qed.



(* ================================================================== *)
(** ** 19. The extractor *)

Section Extractor.

Context {E : Externals}.

Import GeminiService.







End Extractor.




(* ================================================================== *)
(** ** 20. The records of the projector *)

(** C2.  Every record that the projector returns carries the identifier of
    an item of the request, and a model entry whose identifier names no
    item of the request is skipped: its turn of the loop appends nothing. *)
Theorem projector_ids_come_from_request {E : Externals}
  (original_items : list ItemInput.t) :
  (forall parsed out d,
      _process_gemini_response parsed original_items = Ok out ->
      In d out ->
      exists o, In o original_items
                /\ ItemDict.itemId d = JStr (ItemInput.itemId o))
  /\ (forall entry v rest acc,
        getitem entry "itemId" = Ok v ->
        (forall o, In o original_items -> str_eq (ItemInput.itemId o) v = false) ->
        process_item original_items entry = Ok None
        /\ process_items original_items (entry :: rest) acc
           = process_items original_items rest acc).
Proof.
  split.
  - intros parsed out d H Hin.
    destruct (projector_record_origin _ _ _ _ H Hin) as (entry & _ & Hentry).
    apply process_item_Some in Hentry
      as (o & sv & first3 & removal & Hfind & _ & _ & _ & _ & _ & Hid & _).
    apply find_original_Some in Hfind as [Ho Hid'].
    exists o. split; [assumption | congruence].
  - intros entry v rest acc Hv Hno.
    assert (Hskip : process_item original_items entry = Ok None).
    { unfold process_item.
      rewrite (find_original_None _ _ _ Hv Hno). cbn [bind].
      apply getitem_Ok_dict in Hv as (d & -> & _).
      rewrite get_JObj. reflexivity. }
    split; [exact Hskip|].
    cbn [process_items]. rewrite Hskip. reflexivity.
Qed.

Lemma projector_ids_come_from_request_witness :
  (exists o, In o [Fixture.gauze]
             /\ ItemDict.itemId Fixture.gauze_dict = JStr (ItemInput.itemId o))
  /\ @process_item Fixture.E0 [Fixture.gauze] Fixture.invented_entry = Ok None.
Proof.
  destruct (@projector_ids_come_from_request Fixture.E0 [Fixture.gauze]) as [Hids Hskip].
  split.
  - apply (Hids Fixture.gauze_answer [Fixture.gauze_dict] Fixture.gauze_dict).
    + vm_compute. reflexivity.
    + simpl. left. reflexivity.
  - apply (Hskip Fixture.invented_entry (JStr "ZZ9") [] []).
    + reflexivity.
    + intros o [<- | []]. reflexivity.
Defined.

Lemma float_neq (x y : float) : Prim2SF x <> Prim2SF y -> JFloat x <> JFloat y.
Proof. intros H Heq. apply H. injection Heq as ->. reflexivity. Qed.

Lemma iter_first3_length (v : json) (l : list json) :
  iter_first3 v = Ok l -> (List.length l <= 3)%nat.
Proof.
  assert (Hcut : forall l0 : list json, Ok (firstn 3 l0) = Ok l ->
                                         (List.length l <= 3)%nat).
  { intros l0 H. replace l with (firstn 3 l0) by congruence.
    apply firstn_le_length. }
  destruct v; cbn [iter_first3]; intros H; try discriminate; eauto.
Qed.

(** C3, as amended.  For every record that the projector returns there is a
    model entry that names a request item [o]; the record's suggestions are
    the projections, in order, of the first three elements of the entry's
    [suggestions] list (none when the key is absent).  Each projection has
    [costSavings = round(d, 2)] and
    [savingsPercent = round(d / currentCost * 100, 1)] when [currentCost > 0]
    and [0] otherwise, where [d = currentCost - estimatedCost] is the
    difference before rounding and [currentCost] is that of [o]; its
    confidence is the model's, or 0.7 when the model gives none. *)
Theorem projector_suggestions {E : Externals}
  (original_items : list ItemInput.t) (parsed : json)
  (out : list ItemDict.t) (d : ItemDict.t) :
  _process_gemini_response parsed original_items = Ok out ->
  In d out ->
  exists entry o sv first3,
    Spec.model_entry parsed entry
    /\ process_item original_items entry = Ok (Some d)
    /\ In o original_items
    /\ getitem entry "itemId" = Ok (JStr (ItemInput.itemId o))
    /\ get entry "suggestions" (JArr []) = Ok sv
    /\ iter_first3 sv = Ok first3
    /\ (forall l, sv = JArr l -> first3 = firstn 3 l)
    /\ (List.length (ItemDict.suggestions d) <= 3)%nat
    /\ Forall2 (Spec.projected_suggestion (ItemInput.currentCost o))
         first3 (ItemDict.suggestions d).
Proof.
  intros H Hin.
  destruct (projector_record_origin _ _ _ _ H Hin) as (entry & Hmodel & Hentry).
  destruct (process_item_Some _ _ _ Hentry)
    as (o & sv & first3 & removal & Hfind & Hsv & Hfirst & Hmap & _).
  apply find_original_Some in Hfind as [Ho Hid].
  apply mapM_Forall2 in Hmap.
  exists entry, o, sv, first3.
  repeat (split; [assumption|]).
  split; [|split].
  - intros l ->. cbn [iter_first3] in Hfirst. congruence.
  - rewrite <- (Forall2_length Hmap). eapply iter_first3_length; eauto.
  - eapply Forall2_impl; [|exact Hmap].
    intros s sd Hs. apply process_suggestion_Ok. exact Hs.
Qed.

Lemma projector_suggestions_witness :
  exists entry o sv first3,
    Spec.model_entry Fixture.gauze_answer entry
    /\ @process_item Fixture.E0 [Fixture.gauze] entry = Ok (Some Fixture.gauze_dict)
    /\ In o [Fixture.gauze]
    /\ getitem entry "itemId" = Ok (JStr (ItemInput.itemId o))
    /\ get entry "suggestions" (JArr []) = Ok sv
    /\ iter_first3 sv = Ok first3
    /\ (forall l, sv = JArr l -> first3 = firstn 3 l)
    /\ (List.length (ItemDict.suggestions Fixture.gauze_dict) <= 3)%nat
    /\ Forall2 (Spec.projected_suggestion (ItemInput.currentCost o))
         first3 (ItemDict.suggestions Fixture.gauze_dict).
Proof.
  apply (@projector_suggestions Fixture.E0 [Fixture.gauze] Fixture.gauze_answer
           [Fixture.gauze_dict]).
  - vm_compute. reflexivity.
  - simpl. left. reflexivity.
Defined.

(** Four suggestions are cut to the first three, in the model's order; an
    [int] cost is accepted and a missing confidence becomes 0.7. *)
Example four_suggestions_cut_to_three :
  exists out,
    @process_item Fixture.E0 [Fixture.gauze] Fixture.four_suggestions_entry = Ok (Some out)
    /\ map SuggestionDict.estimatedCost (ItemDict.suggestions out)
       = [JFloat 6%float; JFloat 7%float; JInt 8]
    /\ map SuggestionDict.confidence (ItemDict.suggestions out)
       = [JFloat 0.8%float; JFloat 0.8%float; JFloat 0.7%float]
    /\ map SuggestionDict.costSavings (ItemDict.suggestions out)
       = [4%float; 3%float; 2%float].
Proof. eexists. vm_compute. repeat split. Qed.

(** C3, counterexample to the claim as stated.  For an item that costs 1.0
    and a suggestion estimated at 0.996 the projector returns
    [costSavings = 0.0] and [savingsPercent = 0.4]: the percentage is not
    [round(costSavings / currentCost * 100, 1)], which is 0.0. *)
Lemma savings_percent_not_from_cost_savings :
  exists out s,
    @process_item Fixture.E0 [Fixture.item_costing 1%float] Fixture.small_saving_entry
      = Ok (Some out)
    /\ ItemDict.suggestions out = [s]
    /\ SuggestionDict.costSavings s = PyFloat.round (1 - 0.996)%float 2
    /\ SuggestionDict.savingsPercent s = JFloat 0.4%float
    /\ SuggestionDict.savingsPercent s
       <> JFloat (PyFloat.round
                    (SuggestionDict.costSavings s / 1 * 100)%float 1).
Proof.
  eexists. eexists.
  split; [vm_compute; reflexivity|].
  split; [reflexivity|].
  split; [vm_compute; reflexivity|].
  split; [vm_compute; reflexivity|].
  apply float_neq. vm_compute. discriminate.
Qed.

(** The two removal fields of a returned record. *)
Lemma removal_fields {E : Externals} (original_items : list ItemInput.t)
  (entry : json) (out : ItemDict.t) :
  process_item original_items entry = Ok (Some out) ->
  exists o removal,
    In o original_items
    /\ ItemDict.itemId out = JStr (ItemInput.itemId o)
    /\ get entry "removalSuggestion" (JObj []) = Ok (JObj removal)
    /\ RemovalDict.recommended (ItemDict.removalSuggestion out)
       = match lookup "recommended" removal with
         | Some v => v
         | None => ItemDict.neverUsedFlag out
         end
    /\ RemovalDict.actionableCheckboxId (ItemDict.removalSuggestion out)
       = match lookup "recommended" removal with
         | Some v => if truthy v then Some ("chk_" ++ ItemInput.itemId o) else None
         | None => None
         end.
Proof.
  intros H.
  apply process_item_Some in H
    as (o & sv & first3 & removal & Hfind & _ & _ & _ & _ & Hrem & Hid & _ & _ & _
        & Hrec & _ & flag & Hflag & Hchk).
  apply find_original_Some in Hfind as [Ho Hid'].
  destruct removal as [| | | | | |removal]; try discriminate.
  rewrite get_JObj in Hrec, Hflag.
  exists o, removal.
  repeat split; try assumption; try congruence.
  rewrite Hchk. injection Hflag as <-.
  destruct (lookup "recommended" removal); reflexivity.
Qed.

(** C4, at the failing input.  In every returned record [recommended] is
    the model's own value when the key is present and the never-used flag
    otherwise, and the checkbox identifier is ["chk_"] followed by the item
    identifier exactly when the model's own value is present and true.  So
    when the model flags the item as never used and gives a removal
    suggestion without the key [recommended], the returned record has
    [recommended = True], taken from the flag, and no checkbox
    identifier. *)
Theorem recommended_without_checkbox {E : Externals} :
  (forall original_items entry out,
      process_item original_items entry = Ok (Some out) ->
      exists o removal,
        In o original_items
        /\ ItemDict.itemId out = JStr (ItemInput.itemId o)
        /\ get entry "removalSuggestion" (JObj []) = Ok (JObj removal)
        /\ RemovalDict.recommended (ItemDict.removalSuggestion out)
           = match lookup "recommended" removal with
             | Some v => v
             | None => ItemDict.neverUsedFlag out
             end
        /\ RemovalDict.actionableCheckboxId (ItemDict.removalSuggestion out)
           = match lookup "recommended" removal with
             | Some v =>
                 if truthy v then Some ("chk_" ++ ItemInput.itemId o) else None
             | None => None
             end)
  /\ exists out,
       process_item [Fixture.gauze] Fixture.never_used_entry = Ok (Some out)
       /\ ItemDict.neverUsedFlag out = JBool true
       /\ RemovalDict.recommended (ItemDict.removalSuggestion out) = JBool true
       /\ RemovalDict.actionableCheckboxId (ItemDict.removalSuggestion out) = None.
Proof.
  split.
  - intros original_items entry out H. apply removal_fields. exact H.
  - eexists. repeat split.
Qed.

Lemma recommended_without_checkbox_witness :
  exists o removal,
    In o [Fixture.gauze]
    /\ ItemDict.itemId Fixture.gauze_dict = JStr (ItemInput.itemId o)
    /\ get Fixture.gauze_entry "removalSuggestion" (JObj []) = Ok (JObj removal)
    /\ RemovalDict.recommended (ItemDict.removalSuggestion Fixture.gauze_dict)
       = match lookup "recommended" removal with
         | Some v => v
         | None => ItemDict.neverUsedFlag Fixture.gauze_dict
         end
    /\ RemovalDict.actionableCheckboxId
         (ItemDict.removalSuggestion Fixture.gauze_dict)
       = match lookup "recommended" removal with
         | Some v =>
             if truthy v then Some ("chk_" ++ ItemInput.itemId o) else None
         | None => None
         end.
Proof.
  destruct (@recommended_without_checkbox Fixture.E0) as [Hfields _].
  apply (Hfields [Fixture.gauze] Fixture.gauze_entry Fixture.gauze_dict).
  vm_compute. reflexivity.
Defined.

(** C5, counterexample to the claim as stated.  The request names the item
    Gauze and the model's entry carries another name: the returned record
    has the model's name. *)
Lemma name_comes_from_model :
  exists out,
    @process_item Fixture.E0 [Fixture.gauze] Fixture.renamed_entry = Ok (Some out)
    /\ ItemDict.name out = JStr "Premium Gauze XL"
    /\ ItemDict.name out <> JStr (ItemInput.name Fixture.gauze).
Proof.
  eexists. split; [reflexivity|]. split; [reflexivity|]. discriminate.
Qed.

(** C5, as amended.  In every record that the projector returns,
    [currentCost] and [lastUsed] are those of the request item that the
    record's identifier names, whatever the model's entry holds under these
    keys; [name] is the value under [name] of the model's entry. *)
Theorem projector_echoed_fields {E : Externals}
  (original_items : list ItemInput.t) (parsed : json)
  (out : list ItemDict.t) (d : ItemDict.t) :
  _process_gemini_response parsed original_items = Ok out ->
  In d out ->
  exists entry o,
    Spec.model_entry parsed entry
    /\ process_item original_items entry = Ok (Some d)
    /\ In o original_items
    /\ ItemDict.itemId d = JStr (ItemInput.itemId o)
    /\ ItemDict.currentCost d = ItemInput.currentCost o
    /\ ItemDict.lastUsed d = ItemInput.lastUsed o
    /\ getitem entry "itemId" = Ok (ItemDict.itemId d)
    /\ getitem entry "name" = Ok (ItemDict.name d).
Proof.
  intros H Hin.
  destruct (projector_record_origin _ _ _ _ H Hin) as (entry & Hmodel & Hentry).
  destruct (process_item_Some _ _ _ Hentry)
    as (o & sv & first3 & removal & Hfind & _ & _ & _ & _ & _ & Hid & Hname
        & Hcost & Hlast & _).
  apply find_original_Some in Hfind as [Ho Hid'].
  exists entry, o. repeat split; try assumption. congruence.
Qed.

Lemma projector_echoed_fields_witness :
  exists entry o,
    Spec.model_entry Fixture.gauze_answer entry
    /\ @process_item Fixture.E0 [Fixture.gauze] entry = Ok (Some Fixture.gauze_dict)
    /\ In o [Fixture.gauze]
    /\ ItemDict.itemId Fixture.gauze_dict = JStr (ItemInput.itemId o)
    /\ ItemDict.currentCost Fixture.gauze_dict = ItemInput.currentCost o
    /\ ItemDict.lastUsed Fixture.gauze_dict = ItemInput.lastUsed o
    /\ getitem entry "itemId" = Ok (ItemDict.itemId Fixture.gauze_dict)
    /\ getitem entry "name" = Ok (ItemDict.name Fixture.gauze_dict).
Proof.
  apply (@projector_echoed_fields Fixture.E0 [Fixture.gauze] Fixture.gauze_answer
           [Fixture.gauze_dict]).
  - vm_compute. reflexivity.
  - simpl. left. reflexivity.
Defined.



(* ================================================================== *)
(** ** 21. Priority items and the summary *)

Lemma priority_step_app (acc : list string) (item : ItemAnalysis.t) :
  Main.priority_step acc item = (acc ++ Spec.priority_ids item)%list.
Proof.
  unfold Main.priority_step, Spec.priority_ids, Spec.exceeds_threshold,
    Prompts.max_savings.
  destruct (ItemAnalysis.suggestions item) as [|s rest].
  - destruct (RemovalSuggestion.recommended _); simpl;
      [reflexivity | rewrite app_nil_r; reflexivity].
  - destruct (PyFloat.gt _ _);
      destruct (RemovalSuggestion.recommended _); simpl;
      rewrite <- ?app_assoc, ?app_nil_r; reflexivity.
Qed.

Lemma priority_fold (items : list ItemAnalysis.t) (acc : list string) :
  fold_left Main.priority_step items acc
  = (acc ++ flat_map Spec.priority_ids items)%list.
Proof.
  revert acc; induction items as [|item items IH]; intros acc; simpl.
  - rewrite app_nil_r. reflexivity.
  - rewrite IH, priority_step_app, app_assoc. reflexivity.
Qed.

(** C8.  The loop of the handler collects, item after item, the identifier
    once when the largest [costSavings] among the item's suggestions
    exceeds 50 and once when the item's removal is recommended; an item
    that qualifies on both counts is listed twice; the response's
    [priorityItems] are the first five collected identifiers. *)
Theorem priority_items_first_five {E : Externals} :
  (forall items,
      Main.priority_loop items = flat_map Spec.priority_ids items)
  /\ (forall item,
        Spec.exceeds_threshold item = true ->
        RemovalSuggestion.recommended (ItemAnalysis.removalSuggestion item) = true ->
        Spec.priority_ids item
        = [ItemAnalysis.itemId item; ItemAnalysis.itemId item])
  /\ (forall request gemini_result response,
        Main.build_response request gemini_result = Ok response ->
        UIHints.priorityItems (SuggestionResponse.uiHints response)
        = firstn 5 (flat_map Spec.priority_ids
                      (SuggestionResponse.itemsAnalyzed response))).
Proof.
  split; [|split].
  - intros items. unfold Main.priority_loop. apply priority_fold.
  - intros item Hsave Hrem. unfold Spec.priority_ids.
    rewrite Hsave, Hrem. reflexivity.
  - intros request gemini_result response H.
    unfold Main.build_response in H.
    apply bind_Ok in H as (items_analyzed & _ & H).
    injection H as <-. simpl.
    unfold Main.top5, Main.priority_loop. rewrite priority_fold. reflexivity.
Qed.

Lemma priority_items_first_five_witness :
  Spec.priority_ids (Fixture.analysis "A1" [60%float; 20%float] false true)
  = ["A1"; "A1"]
  /\ firstn 5 (Main.priority_loop Fixture.six_items)
     = ["A1"; "A1"; "A3"; "A4"; "A6"]
  /\ exists response,
       @Main.build_response Fixture.E0 (Fixture.request_of [Fixture.gauze])
         [Fixture.gauze_dict] = Ok response
       /\ UIHints.priorityItems (SuggestionResponse.uiHints response)
          = firstn 5 (flat_map Spec.priority_ids
                        (SuggestionResponse.itemsAnalyzed response))
       /\ UIHints.priorityItems (SuggestionResponse.uiHints response) = ["A1"].
Proof.
  destruct (@priority_items_first_five Fixture.E0) as (Hloop & Htwice & Hresp).
  split; [|split].
  - apply Htwice; reflexivity.
  - rewrite Hloop. vm_compute. reflexivity.
  - eexists. split; [vm_compute; reflexivity|]. split.
    + apply (Hresp (Fixture.request_of [Fixture.gauze]) [Fixture.gauze_dict]).
      vm_compute. reflexivity.
    + vm_compute. reflexivity.
Defined.

Lemma count_if_filter {A : Type} (p : A -> bool) (l : list A) :
  Prompts.count_if p l = Z.of_nat (List.length (filter p l)).
Proof.
  induction l as [|x l IH]; [reflexivity|].
  cbn [Prompts.count_if filter].
  destruct (p x); cbn [List.length]; rewrite ?Nat2Z.inj_succ, IH; lia.
Qed.

(** The order of the floats: [<] is irreflexive and transitive, also
    where nan and the zeros are involved. *)
Lemma SFltb_irrefl (a : spec_float) : SFltb a a = false.
Proof.
  unfold SFltb, SFcompare.
  destruct a as [s|s| |s m e]; try destruct s; try reflexivity;
    rewrite Z.compare_refl;
    change (Pos.compare_cont Eq m m) with (Pos.compare m m);
    rewrite Pos.compare_refl; reflexivity.
Qed.

Lemma SFltb_trans (a b c : spec_float) :
  SFltb a b = true -> SFltb b c = true -> SFltb a c = true.
Proof.
  unfold SFltb, SFcompare.
  destruct a as [sa|sa| |sa ma ea], b as [sb|sb| |sb mb eb],
    c as [sc|sc| |sc mc ec];
    try destruct sa; try destruct sb; try destruct sc;
    try discriminate; try reflexivity;
    change (Pos.compare_cont Eq ma mb) with (Pos.compare ma mb);
    change (Pos.compare_cont Eq mb mc) with (Pos.compare mb mc);
    change (Pos.compare_cont Eq ma mc) with (Pos.compare ma mc);
    destruct (Z.compare_spec ea eb), (Z.compare_spec eb ec),
      (Z.compare_spec ea ec);
    try discriminate; try reflexivity; try lia;
    destruct (Pos.compare_spec ma mb), (Pos.compare_spec mb mc),
      (Pos.compare_spec ma mc);
    cbn [CompOpp]; try discriminate; try reflexivity; lia.
Qed.

Lemma gt_irrefl (x : float) : PyFloat.gt x x = false.
Proof. unfold PyFloat.gt. rewrite ltb_spec. apply SFltb_irrefl. Qed.

(** When [y] exceeds [m], what does not exceed [m] does not exceed [y]. *)
Lemma gt_replaced (s m y : float) :
  PyFloat.gt y m = true -> PyFloat.gt s m = false -> PyFloat.gt s y = false.
Proof.
  unfold PyFloat.gt. rewrite !ltb_spec. intros Hy Hs.
  destruct (SFltb (Prim2SF y) (Prim2SF s)) eqn:Hys; [|reflexivity].
  rewrite (SFltb_trans _ _ _ Hy Hys) in Hs. discriminate.
Qed.

Lemma max_keeps (l : list float) (m s : float) :
  PyFloat.gt s m = false -> PyFloat.gt s (PyFloat.max m l) = false.
Proof.
  unfold PyFloat.max. revert m.
  induction l as [|y l IH]; intros m Hs; cbn [fold_left]; [exact Hs|].
  apply IH. destruct (PyFloat.gt y m) eqn:Hy; [|exact Hs].
  exact (gt_replaced s m y Hy Hs).
Qed.

(** No element of a list exceeds its [max]. *)
Lemma max_exceeded_by_none (x : float) (l : list float) (s : float) :
  In s (x :: l) -> PyFloat.gt s (PyFloat.max x l) = false.
Proof.
  revert x. induction l as [|y l IH]; intros x Hin.
  - destruct Hin as [<- | []]. apply gt_irrefl.
  - assert (Hstep : PyFloat.max x (y :: l)
                    = PyFloat.max (if PyFloat.gt y x then y else x) l)
      by reflexivity.
    rewrite Hstep.
    destruct Hin as [<- | [<- | Hin]].
    + apply max_keeps. destruct (PyFloat.gt y x) eqn:Hy; [|apply gt_irrefl].
      unfold PyFloat.gt in *. rewrite ltb_spec in *.
      destruct (SFltb (Prim2SF y) (Prim2SF x)) eqn:Hxy; [|reflexivity].
      pose proof (SFltb_trans _ _ _ Hy Hxy) as H.
      rewrite SFltb_irrefl in H. discriminate.
    + apply max_keeps. destruct (PyFloat.gt y x) eqn:Hy; [apply gt_irrefl | exact Hy].
    + apply IH. right. exact Hin.
Qed.

Lemma max_is_element (x : float) (l : list float) :
  In (PyFloat.max x l) (x :: l).
Proof.
  unfold PyFloat.max. revert x. induction l as [|y l IH]; intros x; cbn [fold_left].
  - left. reflexivity.
  - destruct (PyFloat.gt y x).
    + right. apply IH.
    + destruct (IH x) as [H | H]; [left; exact H | right; right; exact H].
Qed.

Lemma has_suggestions_spec (item : ItemAnalysis.t) :
  Prompts.has_suggestions item = Spec.has_suggestion item.
Proof.
  unfold Prompts.has_suggestions, Spec.has_suggestion.
  destruct (ItemAnalysis.suggestions item); reflexivity.
Qed.

(** The terms that the summary adds up: one per item with a suggestion, in
    the order of the items, each a maximum saving of its item. *)
Lemma savings_terms_largest (items : list ItemAnalysis.t) :
  Forall2 Spec.largest_saving (filter Spec.has_suggestion items)
    (Prompts.savings_terms items).
Proof.
  induction items as [|item items IH]; [constructor|].
  cbn [Prompts.savings_terms filter].
  unfold Prompts.max_savings, Spec.has_suggestion at 1.
  destruct (ItemAnalysis.suggestions item) as [|s rest] eqn:Hsuggs;
    [exact IH|].
  cbn [List.length Nat.leb]. constructor; [|exact IH].
  unfold Spec.largest_saving. rewrite Hsuggs. split.
  - pose proof (max_is_element (AlternativeSuggestion.costSavings s)
                  (map AlternativeSuggestion.costSavings rest)) as Hin.
    change (In (PyFloat.max (AlternativeSuggestion.costSavings s)
                  (map AlternativeSuggestion.costSavings rest))
              (map AlternativeSuggestion.costSavings (s :: rest))) in Hin.
    apply in_map_iff in Hin as (s0 & Hs0 & Hin). eauto.
  - intros s0 Hin. apply max_exceeded_by_none.
    change (In (AlternativeSuggestion.costSavings s0)
              (map AlternativeSuggestion.costSavings (s :: rest))).
    apply in_map. exact Hin.
Qed.

Lemma count_has_suggestion (items : list ItemAnalysis.t) :
  Prompts.count_if Prompts.has_suggestions items
  = Z.of_nat (List.length (filter Spec.has_suggestion items)).
Proof.
  rewrite count_if_filter. f_equal. f_equal.
  apply filter_ext. exact has_suggestions_spec.
Qed.

Lemma uint_digits (u : Decimal.uint) :
  Spec.all_chars Spec.is_digit (NilEmpty.string_of_uint u) = true.
Proof. induction u; simpl; auto. Qed.

Lemma str_int_digits (z : Z) :
  0 <= z ->
  str_int z <> "" /\ Spec.all_chars Spec.is_digit (str_int z) = true.
Proof.
  intros Hz. unfold str_int.
  destruct z as [|p|p]; [split; [discriminate | reflexivity] | | lia].
  simpl. unfold NilZero.string_of_uint.
  destruct (Pos.to_uint p) eqn:Hu;
    try (split; [discriminate | rewrite <- Hu; apply uint_digits]).
  split; [discriminate | reflexivity].
Qed.

Lemma digit_is_digit (z : Z) :
  0 <= z < 10 -> Spec.is_digit (PyFloat.digit z) = true.
Proof.
  intros Hz. unfold PyFloat.digit, Spec.is_digit.
  assert (H : z = 0 \/ z = 1 \/ z = 2 \/ z = 3 \/ z = 4 \/ z = 5 \/ z = 6
              \/ z = 7 \/ z = 8 \/ z = 9) by lia.
  repeat destruct H as [-> | H]; try subst z; reflexivity.
Qed.

Lemma half_even_nonneg (num den : Z) :
  0 <= num -> 0 < den -> 0 <= PyFloat.half_even num den.
Proof.
  intros Hn Hd. unfold PyFloat.half_even.
  assert (0 <= num / den) by (apply Z.div_pos; lia).
  destruct (2 * (num mod den) ?= den); [destruct (Z.even _)| |]; lia.
Qed.

Lemma scaled_nonneg (ndigits : Z) (m : positive) (e : Z) :
  0 <= PyFloat.scaled ndigits m e.
Proof.
  unfold PyFloat.scaled.
  assert (0 <= 10 ^ ndigits) by (apply Z.pow_nonneg; lia).
  destruct (0 <=? e) eqn:He.
  - assert (0 <= 2 ^ e) by (apply Z.pow_nonneg; lia). nia.
  - apply half_even_nonneg; [nia|]. apply Z.pow_pos_nonneg; lia.
Qed.

(** The [.2f] format of a finite float has exactly two decimal places. *)
Lemma format_2f_two_places (x : float) :
  Spec.is_finite x = true -> Spec.two_decimal_places (PyFloat.format_2f x).
Proof.
  unfold Spec.is_finite, PyFloat.format_2f, Spec.two_decimal_places.
  destruct (Prim2SF x) as [s|s| |s m e]; try discriminate; intros _.
  - exists (if s then "-" else ""), "0", "0"%char, "0"%char.
    destruct s; repeat split; auto; discriminate.
  - pose proof (scaled_nonneg 2 m e) as Hn.
    set (n := PyFloat.scaled 2 m e) in *.
    assert (H100 : 0 <= n / 100) by (apply Z.div_pos; lia).
    destruct (str_int_digits _ H100) as [Hne Hdig].
    exists (if s then "-" else ""), (str_int (n / 100)),
      (PyFloat.digit (n / 10 mod 10)), (PyFloat.digit (n mod 10)).
    repeat split; auto.
    + destruct s; auto.
    + apply digit_is_digit. apply Z.mod_pos_bound. lia.
    + apply digit_is_digit. apply Z.mod_pos_bound. lia.
Qed.

(** C9, as the code has it.  The summary is the template filled with the
    number of items, the number of items that have at least one
    suggestion, the number of items flagged as never used and the
    potential savings.  The potential savings are a sum with one term per
    item that has a suggestion, in the order of the items, and each term
    is a maximum saving of its item: the saving of one of its suggestions,
    which no suggestion of the item exceeds.  The amount is printed in the
    [.2f] format, which is a figure with exactly two decimal places when
    the amount is finite, and one of [inf], [-inf] and [nan] when it is
    not.  An item whose suggestions save 4.0 and 3.0 contributes 4.0, not
    7.0. *)
Theorem summary_reports_counts_and_best_savings
  (analysis_results : list ItemAnalysis.t) :
  let total := PyFloat.sum (Prompts.savings_terms analysis_results) in
  Spec.potential_savings analysis_results total
  /\ Prompts.build_summary_prompt analysis_results
     = "Analyzed " ++ str_int (Z.of_nat (List.length analysis_results))
         ++ " items. Found cost-saving alternatives for "
         ++ str_int (Z.of_nat (List.length
                       (filter Spec.has_suggestion analysis_results)))
         ++ " items with potential savings of $"
         ++ PyFloat.format_2f total
         ++ ". Identified "
         ++ str_int (Z.of_nat (List.length
                       (filter ItemAnalysis.neverUsedFlag analysis_results)))
         ++ " never-used items recommended for removal."
  /\ (Spec.is_finite total = true ->
      Spec.two_decimal_places (PyFloat.format_2f total))
  /\ (Spec.is_finite total = false ->
      In (PyFloat.format_2f total) ["inf"; "-inf"; "nan"])
  /\ Prompts.build_summary_prompt [Fixture.analysis "A1" [4%float; 3%float] false false]
     = "Analyzed 1 items. Found cost-saving alternatives for 1 items with potential savings of $4.00. Identified 0 never-used items recommended for removal.".
Proof.
  intros total. split; [|split; [|split; [|split]]].
  - exists (Prompts.savings_terms analysis_results).
    split; [apply savings_terms_largest | reflexivity].
  - unfold Prompts.build_summary_prompt. fold total.
    rewrite count_has_suggestion, count_if_filter. reflexivity.
  - apply format_2f_two_places.
  - unfold Spec.is_finite, PyFloat.format_2f.
    destruct (Prim2SF total) as [s|s| |s m e]; try discriminate; intros _.
    + destruct s; cbn [In]; auto.
    + cbn [In]. auto.
  - vm_compute. reflexivity.
Qed.

Lemma summary_reports_counts_and_best_savings_witness :
  Spec.potential_savings Fixture.ranked_savings 97.25%float
  /\ Spec.two_decimal_places (PyFloat.format_2f 97.25%float)
  /\ Prompts.build_summary_prompt Fixture.ranked_savings
     = "Analyzed 3 items. Found cost-saving alternatives for 2 items with potential savings of $97.25. Identified 1 never-used items recommended for removal.".
Proof.
  destruct (summary_reports_counts_and_best_savings Fixture.ranked_savings)
    as (Hsum & Heq & Hfig & _).
  split; [exact Hsum|].
  split.
  - apply Hfig. vm_compute. reflexivity.
  - rewrite Heq. vm_compute. reflexivity.
Defined.

(** C9, at the failing input.  Two items whose best savings are 1e308
    each: the sum overflows, and the amount is printed as [inf], which
    has no decimal place. *)
Lemma overflowing_savings_have_no_decimals :
  Prompts.build_summary_prompt Fixture.overflowing_savings
  = "Analyzed 2 items. Found cost-saving alternatives for 2 items with potential savings of $inf. Identified 0 never-used items recommended for removal."
  /\ ~ Spec.two_decimal_places "inf".
Proof.
  split; [vm_compute; reflexivity|].
  intros (sign & int_part & d1 & d2 & Heq & Hsign & Hne & Hdigits & _).
  destruct int_part as [|c int_part]; [congruence|].
  cbn [Spec.all_chars] in Hdigits. apply andb_prop in Hdigits as [Hc _].
  destruct Hsign as [-> | ->]; cbn [append] in Heq.
  - injection Heq as <- _. discriminate.
  - discriminate.
Qed.

(* ================================================================== *)
(** ** 22. The endpoint *)

(** C6, at the failing inputs.  A request without items and a request with
    more than 50 items are answered with status 500, the status-400
    exception raised by the validation being caught by the handler's
    [except Exception] clause; the provider is not called. *)
Theorem rejected_request_is_answered_500 {E : Externals}
  (request : SuggestionRequest.t) :
  (SuggestionRequest.items request = [] ->
   Main.generate_suggestions request
   = (Main.ErrorResponse 500
        ("Internal server error: "
           ++ str_exn (HTTPException 400 "No items provided for analysis")),
      []))
  /\ ((50 < List.length (SuggestionRequest.items request))%nat ->
      Main.generate_suggestions request
      = (Main.ErrorResponse 500
           ("Internal server error: "
              ++ str_exn (HTTPException 400 "Maximum 50 items per request")),
         [])).
Proof.
  unfold Main.generate_suggestions, Main.try_body. split.
  - intros ->. reflexivity.
  - intros Hlen.
    destruct (SuggestionRequest.items request) as [|i items] eqn:Hitems;
      [simpl in Hlen; lia|].
    replace (50 <? Z.of_nat (List.length (i :: items))) with true
      by (symmetry; apply Z.ltb_lt; lia).
    reflexivity.
Qed.

Lemma rejected_request_is_answered_500_witness :
  @Main.generate_suggestions Fixture.E0 (Fixture.request_of [])
  = (Main.ErrorResponse 500
       "Internal server error: 400: No items provided for analysis", [])
  /\ @Main.generate_suggestions Fixture.E0 (Fixture.request_of (repeat Fixture.gauze 51))
     = (Main.ErrorResponse 500
          "Internal server error: 400: Maximum 50 items per request", []).
Proof.
  split.
  - apply (@rejected_request_is_answered_500 Fixture.E0 (Fixture.request_of [])).
    reflexivity.
  - apply (@rejected_request_is_answered_500 Fixture.E0
             (Fixture.request_of (repeat Fixture.gauze 51))).
    simpl. lia.
Defined.

Section Endpoint.

Context {E : Externals}.

Import GeminiService.

Lemma process_item_malformed (os : list ItemInput.t) (entry : json) :
  Spec.malformed_retained os entry -> exists e, process_item os entry = Raise e.
Proof.
  intros (o & d & suggs & sugg & Ho & -> & Hid & Hsuggs & Hin & Hlack).
  destruct (find_original_matched os d o Ho Hid) as [o' Hfind].
  unfold process_item. rewrite Hfind. cbn [bind].
  rewrite get_JObj, Hsuggs. cbn [bind iter_first3].
  destruct (mapM_In_Raise (process_suggestion (ItemInput.currentCost o'))
              (firstn 3 suggs) sugg Hin) as [e He].
  { apply process_suggestion_lacking. exact Hlack. }
  rewrite He. cbn [bind]. eauto.
Qed.

Lemma projector_malformed (os : list ItemInput.t) (parsed : json)
  (d : list (string * json)) (entries : list json) (entry : json) :
  parsed = JObj d -> lookup "items" d = Some (JArr entries) ->
  In entry entries -> Spec.malformed_retained os entry ->
  exists e, _process_gemini_response parsed os = Raise e
            /\ is_ValueError e = false.
Proof.
  intros -> Hd Hin Hbad.
  destruct (process_items_In_Raise os entries [] entry Hin
              (process_item_malformed os entry Hbad)) as [e He].
  exists e. split.
  - unfold _process_gemini_response. rewrite get_JObj, Hd.
    cbn [bind len iter]. exact He.
  - apply (projector_not_ValueError (JObj d) os).
    unfold _process_gemini_response. rewrite get_JObj, Hd.
    cbn [bind len iter]. exact He.
Qed.

Lemma not_ValueError_not_JSONDecodeError (e : exn) :
  is_ValueError e = false -> is_JSONDecodeError e = false.
Proof. destruct e; simpl; congruence. Qed.

End Endpoint.

Lemma no_rationale_entry_malformed :
  Spec.malformed_retained [Fixture.gauze] Fixture.no_rationale_entry.
Proof.
  exists Fixture.gauze. eexists. eexists. eexists.
  split; [left; reflexivity|].
  split; [reflexivity|].
  split; [reflexivity|].
  split; [reflexivity|].
  split; [left; reflexivity|].
  eexists. exists "rationale".
  split; [reflexivity|]. split; [|reflexivity].
  simpl. auto.
Defined.

(** C7, counterexample to the claim as stated.  The request holds one item
    and the provider's answer parses to one entry for that item whose only
    suggestion has no [rationale]: the endpoint answers with status 500,
    which is neither 422 nor another 4xx status. *)
Lemma missing_field_is_answered_500 :
  Spec.malformed_retained [Fixture.gauze] Fixture.no_rationale_entry
  /\ @Main.generate_suggestions (Fixture.answering Fixture.no_rationale_answer)
       (Fixture.request_of [Fixture.gauze])
     = (Main.ErrorResponse 500 "Internal server error: 'rationale'", ["prompt"])
  /\ (forall detail,
        @Main.generate_suggestions (Fixture.answering Fixture.no_rationale_answer)
          (Fixture.request_of [Fixture.gauze])
        <> (Main.ErrorResponse 422 detail, ["prompt"])).
Proof.
  split; [exact no_rationale_entry_malformed|].
  split; [vm_compute; reflexivity|].
  intros detail H. vm_compute in H. discriminate.
Qed.

(** C7, as amended.  When the request passes the validation, the provider
    answers with a text from which an object is extracted, and among the
    entries of that object one names a request item and has, among its
    first three suggestions, a dict without [name], [estimatedCost] or
    [rationale], the endpoint answers with an error of status 500 after
    the one provider call: no response body is returned and the suggestion
    is not dropped. *)
Theorem missing_field_fails_whole_request {E : Externals}
  (request : SuggestionRequest.t) (response : GenerateContentResponse)
  (text : string) (parts : list string)
  (others : list (option (list string)))
  (d : list (string * json)) (entries : list json) (entry : json) :
  let items := SuggestionRequest.items request in
  let prompt := build_suggestion_prompt items (SuggestionRequest.subGrid request)
                  (SuggestionRequest.procedureType request) in
  items <> [] ->
  (List.length items <= 50)%nat ->
  generate_content prompt = Ok response ->
  candidates response = Some (text :: parts) :: others ->
  GeminiService._extract_json text = Ok (JObj d) ->
  lookup "items" d = Some (JArr entries) ->
  In entry entries ->
  Spec.malformed_retained items entry ->
  exists detail,
    Main.generate_suggestions request = (Main.ErrorResponse 500 detail, [prompt]).
Proof.
  intros items prompt Hne Hlen Hgen Hcand Hext Hd Hin Hbad.
  destruct (projector_malformed items (JObj d) d entries entry eq_refl Hd Hin Hbad)
    as (e & He & Hnv).
  exists ("Internal server error: " ++ str_exn e).
  unfold Main.generate_suggestions, Main.try_body.
  fold items. destruct items as [|i rest] eqn:Hitems; [congruence|].
  replace (50 <? Z.of_nat (List.length (i :: rest))) with false
    by (symmetry; apply Z.ltb_ge; lia).
  unfold GeminiService.generate_suggestions.
  fold prompt. rewrite Hgen.
  unfold GeminiService.handle_response. rewrite Hcand, Hext. cbn [bind].
  rewrite He, (not_ValueError_not_JSONDecodeError e Hnv).
  cbn [bind]. rewrite Hnv. reflexivity.
Qed.

Lemma missing_field_fails_whole_request_witness :
  exists detail,
    @Main.generate_suggestions (Fixture.answering Fixture.no_rationale_answer)
      (Fixture.request_of [Fixture.gauze])
    = (Main.ErrorResponse 500 detail, ["prompt"]).
Proof.
  apply (@missing_field_fails_whole_request (Fixture.answering Fixture.no_rationale_answer)
           (Fixture.request_of [Fixture.gauze])
           {| candidates := [Some ["ANSWER"]] |} "ANSWER" [] []
           [("items", JArr [Fixture.no_rationale_entry])] [Fixture.no_rationale_entry]
           Fixture.no_rationale_entry).
  - discriminate.
  - simpl. lia.
  - reflexivity.
  - reflexivity.
  - reflexivity.
  - reflexivity.
  - left. reflexivity.
  - exact no_rationale_entry_malformed.
Defined.

(* ================================================================== *)
(** ** 23. The end-to-end example *)

(** The end-to-end example: one item that costs 10.00 and was never used,
    and a provider answer that suggests an alternative at 6.00 and
    recommends the removal. *)
Example gauze_end_to_end :
  exists response item suggestion,
    @Main.generate_suggestions
       (Fixture.answering (JObj [("items", JArr [Fixture.gauze_entry])]))
       (Fixture.request_of [Fixture.gauze])
    = (Main.Response200 response, ["prompt"])
    /\ SuggestionResponse.itemsAnalyzed response = [item]
    /\ ItemAnalysis.suggestions item = [suggestion]
    /\ AlternativeSuggestion.costSavings suggestion = 4%float
    /\ AlternativeSuggestion.savingsPercent suggestion = 40%float
    /\ RemovalSuggestion.recommended (ItemAnalysis.removalSuggestion item) = true
    /\ RemovalSuggestion.actionableCheckboxId (ItemAnalysis.removalSuggestion item)
       = Some "chk_A1"
    /\ In "A1" (UIHints.priorityItems (SuggestionResponse.uiHints response)).
Proof.
  do 3 eexists.
  split; [vm_compute; reflexivity|].
  repeat (split; [reflexivity|]).
  simpl. auto.
Qed.

Import Behaviour.

(* ================================================================== *)
(** ** 24. The extractor: whitespace, the outermost braces, provenance *)

Lemma lstrip_all_space (ws : string) :
  Spec.all_chars Str.is_space ws = true -> Str.lstrip ws = "".
Proof.
  induction ws as [|c ws IH]; cbn [Spec.all_chars Str.lstrip]; [reflexivity|].
  intros H. apply andb_prop in H as [Hc H]. rewrite Hc. auto.
Qed.

Lemma rstrip_all_space (ws : string) :
  Spec.all_chars Str.is_space ws = true -> Str.rstrip ws = "".
Proof.
  induction ws as [|c ws IH]; cbn [Spec.all_chars Str.rstrip]; [reflexivity|].
  intros H. apply andb_prop in H as [Hc H]. rewrite (IH H), Hc. reflexivity.
Qed.

Lemma lstrip_spaces (ws t : string) :
  Spec.all_chars Str.is_space ws = true -> Str.lstrip (ws ++ t) = Str.lstrip t.
Proof.
  induction ws as [|c ws IH]; cbn [Spec.all_chars append Str.lstrip]; [reflexivity|].
  intros H. apply andb_prop in H as [Hc H]. rewrite Hc. auto.
Qed.

Lemma rstrip_spaces (t ws : string) :
  Spec.all_chars Str.is_space ws = true -> Str.rstrip (t ++ ws) = Str.rstrip t.
Proof.
  intros H. induction t as [|c t IH]; cbn [append Str.rstrip].
  - apply rstrip_all_space. exact H.
  - rewrite IH. reflexivity.
Qed.

Lemma strip_spaces (ws1 t ws2 : string) :
  Spec.all_chars Str.is_space ws1 = true ->
  Spec.all_chars Str.is_space ws2 = true ->
  Str.strip (ws1 ++ t ++ ws2) = Str.strip t.
Proof.
  intros H1 H2. unfold Str.strip. rewrite lstrip_spaces by exact H1.
  induction t as [|c t IH]; cbn [append Str.lstrip].
  - rewrite lstrip_all_space by exact H2. reflexivity.
  - destruct (Str.is_space c); [exact IH|].
    change (String c (t ++ ws2)) with (String c t ++ ws2).
    apply rstrip_spaces. exact H2.
Qed.

(** X1. [_extract_json] strips the text before anything else, so
    whitespace before and after the provider's text changes neither the
    object that is extracted nor the failure: for runs [ws1] and [ws2] of
    whitespace, [ws1 + text + ws2] and [text] have the same outcome. *)
Theorem extract_json_ignores_outer_whitespace {E : Externals}
  (ws1 text ws2 : string) :
  Spec.all_chars Str.is_space ws1 = true ->
  Spec.all_chars Str.is_space ws2 = true ->
  _extract_json (ws1 ++ text ++ ws2) = _extract_json text.
Proof.
  intros H1 H2. unfold _extract_json.
  rewrite strip_spaces by assumption. reflexivity.
Qed.

Lemma extract_json_ignores_outer_whitespace_witness :
  @_extract_json Fixture.E_items
    ((" " ++ Fixture.nl) ++ Fixture.fenced_text ++ (Fixture.nl ++ "  "))
  = Ok Fixture.empty_items.
Proof.
  rewrite (@extract_json_ignores_outer_whitespace Fixture.E_items
             (" " ++ Fixture.nl) Fixture.fenced_text (Fixture.nl ++ "  ")
             eq_refl eq_refl).
  vm_compute. reflexivity.
Defined.

(** X2. The third strategy takes the text from the first opening brace to
    the last closing brace.  When nothing before the opening brace is an
    opening brace and nothing after the closing brace is a closing brace,
    the prose [a] and [b] around the braces is dropped and the outcome is
    that of [json.loads] on the braces and what they enclose: the parsed
    object; the [ValueError] of the extractor when [json.loads] raises
    [JSONDecodeError]; and any other exception of [json.loads] as it
    is. *)
Theorem extract_braces_outermost {E : Externals} (a inner b : string) :
  Spec.all_chars (Spec.other_than "{") a = true ->
  Spec.all_chars (Spec.other_than "}") b = true ->
  extract_braces (a ++ ("{" ++ inner ++ "}") ++ b)
  = match json_loads ("{" ++ inner ++ "}") with
    | Ok v => Ok v
    | Raise e => if is_JSONDecodeError e then Raise extract_error else Raise e
    end.
Proof.
  intros Ha Hb. unfold extract_braces.
  destruct (braces_located a inner b Ha Hb) as [Hguard Hslice].
  cbn zeta in Hguard, Hslice. rewrite Hguard, Hslice. reflexivity.
Qed.

Lemma extract_braces_outermost_witness :
  @extract_braces Fixture.E_items ("Here you go: " ++ Fixture.items_json ++ " - done")
  = Ok Fixture.empty_items
  /\ @extract_braces Fixture.E_items "Here you go: {items} - done"
     = Raise extract_error
  /\ @extract_braces Fixture.E_limit Fixture.long_integer_in_prose
     = Raise Fixture.int_limit_error.
Proof.
  split; [|split].
  - exact (@extract_braces_outermost Fixture.E_items "Here you go: "
             (Fixture.dq ++ "items" ++ Fixture.dq ++ ":[]") " - done"
             eq_refl eq_refl).
  - exact (@extract_braces_outermost Fixture.E_items "Here you go: "
             "items" " - done" eq_refl eq_refl).
  - exact (@extract_braces_outermost Fixture.E_limit "Total: "
             (Fixture.dq ++ "n" ++ Fixture.dq ++ ":" ++ Fixture.long_integer)
             " - done" eq_refl eq_refl).
Defined.

Lemma append_empty_r (s : string) : s ++ "" = s.
Proof. induction s as [|c s IH]; simpl; congruence. Qed.

Lemma part_of_refl (s : string) : part_of s s.
Proof. exists "", "". cbn [append]. rewrite append_empty_r. reflexivity. Qed.

Lemma substring_is_prefix (s : string) :
  forall m, exists after, s = substring 0 m s ++ after.
Proof.
  induction s as [|c s IH]; intros m.
  - exists "". destruct m; reflexivity.
  - destruct m as [|m]; cbn [substring].
    + exists (String c s). reflexivity.
    + destruct (IH m) as [after Hafter].
      exists after. cbn [append]. rewrite <- Hafter. reflexivity.
Qed.

Lemma substring_is_part (s : string) :
  forall n m, part_of (substring n m s) s.
Proof.
  induction s as [|c s IH]; intros n m.
  - exists "", "". destruct n, m; reflexivity.
  - destruct n as [|n].
    + destruct (substring_is_prefix (String c s) m) as [after Hafter].
      exists "", after. exact Hafter.
    + cbn [substring]. destruct (IH n m) as (before & after & Hs).
      exists (String c before), after. cbn [append]. rewrite <- Hs. reflexivity.
Qed.

Lemma fenced_in_part (text body : string) :
  Spec.fenced_in text body -> part_of body text.
Proof.
  intros (pre & tag & ws1 & mid & ws2 & post & -> & _ & _ & _ & _).
  exists (pre ++ "```" ++ tag ++ ws1), (ws2 ++ "```" ++ post).
  rewrite !append_assoc. reflexivity.
Qed.

(** X3. Whatever [_extract_json] returns is what [json.loads] gives on a
    contiguous part of the stripped text (the whole of it, the inside of
    a fenced block, or a span of braces): nothing is made up.  The
    [JSONDecodeError]s of the three attempts are all caught, so no
    [JSONDecodeError] leaves the extractor: an exception that leaves it
    is its own [ValueError] ["Could not extract valid JSON from Gemini
    response"], or an exception other than [JSONDecodeError] that
    [json.loads] raised on such a part. *)
Theorem extract_json_returns_a_parsed_part {E : Externals} (text : string) :
  (forall v,
      _extract_json text = Ok v ->
      exists s, part_of s (Str.strip text) /\ json_loads s = Ok v)
  /\ (forall e,
        _extract_json text = Raise e ->
        is_JSONDecodeError e = false
        /\ (e = extract_error
            \/ exists s, part_of s (Str.strip text) /\ json_loads s = Raise e)).
Proof.
  set (t := Str.strip text).
  set (P := fun r : result json =>
    (forall v, r = Ok v -> exists s, part_of s t /\ json_loads s = Ok v)
    /\ (forall e,
          r = Raise e ->
          is_JSONDecodeError e = false
          /\ (e = extract_error
              \/ exists s, part_of s t /\ json_loads s = Raise e))).
  assert (Hfail : P (Raise extract_error)).
  { split; intros x Hx; inversion Hx. auto. }
  assert (Hstep : forall s next,
    part_of s t -> P next ->
    P (match json_loads s with
       | Ok v => Ok v
       | Raise e => if is_JSONDecodeError e then next else Raise e
       end)).
  { intros s next Hs Hnext.
    destruct (json_loads s) as [v|e] eqn:Hloads.
    - split; intros x Hx; inversion Hx; subst. eauto.
    - destruct (is_JSONDecodeError e) eqn:He; [exact Hnext|].
      split; intros x Hx; inversion Hx; subst. eauto. }
  assert (Hbraces : P (extract_braces t)).
  { unfold extract_braces. destruct (negb _ && negb _ && _); [|exact Hfail].
    apply Hstep; [apply substring_is_part | exact Hfail]. }
  assert (Hfenced : P (extract_fenced t)).
  { unfold extract_fenced.
    destruct (Re.search fence_pattern t) as [[body|]|] eqn:Hsearch.
    - apply Hstep; [|exact Hbraces].
      apply search_fence in Hsearch as (b & Hb & Hin).
      injection Hb as <-. apply fenced_in_part. exact Hin.
    - apply search_fence in Hsearch as (b & Hb & _). discriminate.
    - exact Hbraces. }
  change (P (_extract_json text)). unfold _extract_json. fold t.
  apply Hstep; [apply part_of_refl | exact Hfenced].
Qed.

Lemma extract_json_returns_a_parsed_part_witness :
  (exists s, part_of s (Str.strip Fixture.fenced_text)
             /\ @json_loads Fixture.E_items s = Ok Fixture.empty_items)
  /\ is_JSONDecodeError extract_error = false
  /\ (Fixture.int_limit_error = extract_error
      \/ exists s, part_of s (Str.strip Fixture.long_integer_in_prose)
                   /\ @json_loads Fixture.E_limit s = Raise Fixture.int_limit_error).
Proof.
  destruct (@extract_json_returns_a_parsed_part Fixture.E_items Fixture.fenced_text)
    as [Hok _].
  destruct (@extract_json_returns_a_parsed_part Fixture.E_items Fixture.refusal_text)
    as [_ Hraise].
  destruct (@extract_json_returns_a_parsed_part Fixture.E_limit
              Fixture.long_integer_in_prose) as [_ Hescape].
  split; [|split].
  - apply Hok. vm_compute. reflexivity.
  - apply (Hraise extract_error). vm_compute. reflexivity.
  - apply (Hescape Fixture.int_limit_error). vm_compute. reflexivity.
Defined.

(* ================================================================== *)
(** ** 25. The projector: item lists, duplicates, optional and required keys *)

Section ProjectorMore.

Context {E : Externals}.

Lemma process_items_acc (os : list ItemInput.t) (entries : list json)
  (acc : list ItemDict.t) :
  process_items os entries acc
  = bind (process_items os entries []) (fun out => Ok (acc ++ out)%list).
Proof.
  revert acc. induction entries as [|entry entries IH]; intros acc.
  - cbn [process_items bind]. rewrite app_nil_r. reflexivity.
  - cbn [process_items].
    destruct (process_item os entry) as [[d|]|e]; cbn [bind]; [| |reflexivity].
    + rewrite (IH (acc ++ [d])%list), (IH ([] ++ [d])%list).
      destruct (process_items os entries []); cbn [bind]; [|reflexivity].
      rewrite <- app_assoc. reflexivity.
    + apply IH.
Qed.

Lemma process_items_app (os : list ItemInput.t) (e1 e2 : list json)
  (acc : list ItemDict.t) :
  process_items os (e1 ++ e2) acc
  = bind (process_items os e1 acc) (fun acc' => process_items os e2 acc').
Proof.
  revert acc. induction e1 as [|entry e1 IH]; intros acc; [reflexivity|].
  cbn [app process_items].
  destruct (process_item os entry) as [[d|]|e]; cbn [bind]; auto.
Qed.

Lemma projector_answer_with (os : list ItemInput.t) (entries : list json) :
  _process_gemini_response (answer_with entries) os = process_items os entries [].
Proof. reflexivity. Qed.

Lemma process_items_length (os : list ItemInput.t) (entries : list json)
  (out : list ItemDict.t) :
  process_items os entries [] = Ok out ->
  (List.length out <= List.length entries)%nat.
Proof.
  intros H. apply process_items_Ok in H as (rs & Hrs & ->).
  apply mapM_Forall2 in Hrs. apply Forall2_length in Hrs. rewrite Hrs.
  cbn [app]. clear. induction rs as [|[d|] rs IH]; simpl; lia.
Qed.

End ProjectorMore.

(** X4. The projector handles the entries of the answer one by one, in
    order, and keeps no state between them: an item list [e1 + e2] is
    projected exactly when both [e1] and [e2] are, and its result is the
    result for [e1] followed by the result for [e2].  The result never
    has more records than the answer has entries. *)
Theorem projector_concatenates {E : Externals} (os : list ItemInput.t)
  (e1 e2 : list json) (out : list ItemDict.t) :
  (_process_gemini_response (answer_with (e1 ++ e2)) os = Ok out
   <-> exists o1 o2,
         _process_gemini_response (answer_with e1) os = Ok o1
         /\ _process_gemini_response (answer_with e2) os = Ok o2
         /\ out = (o1 ++ o2)%list)
  /\ (_process_gemini_response (answer_with e1) os = Ok out ->
      (List.length out <= List.length e1)%nat).
Proof.
  rewrite !projector_answer_with. split.
  - rewrite process_items_app. split.
    + intros H. apply bind_Ok in H as (o1 & H1 & H).
      rewrite process_items_acc in H.
      apply bind_Ok in H as (o2 & H2 & H). injection H as <-.
      exists o1, o2. auto.
    + intros (o1 & o2 & H1 & H2 & ->).
      rewrite H1. cbn [bind]. rewrite process_items_acc, H2. reflexivity.
  - apply process_items_length.
Qed.

Lemma projector_concatenates_witness :
  @_process_gemini_response Fixture.E0
    (answer_with ([Fixture.invented_entry] ++ [Fixture.gauze_entry]))
    [Fixture.gauze]
  = Ok [Fixture.gauze_dict]
  /\ (List.length [Fixture.gauze_dict] <= List.length [Fixture.gauze_entry])%nat.
Proof.
  split.
  - apply (proj1 (@projector_concatenates Fixture.E0 [Fixture.gauze]
                    [Fixture.invented_entry] [Fixture.gauze_entry]
                    [Fixture.gauze_dict])).
    exists [], [Fixture.gauze_dict].
    split; [vm_compute; reflexivity|].
    split; [vm_compute; reflexivity | reflexivity].
  - apply (proj2 (@projector_concatenates Fixture.E0 [Fixture.gauze]
                    [Fixture.gauze_entry] [] [Fixture.gauze_dict])).
    vm_compute. reflexivity.
Defined.

Lemma find_original_first (os : list ItemInput.t) (entry : json) (o : ItemInput.t) :
  find_original os entry = Ok (Some o) ->
  exists before after,
    os = (before ++ o :: after)%list
    /\ Forall (fun i => ItemInput.itemId i <> ItemInput.itemId o) before.
Proof.
  induction os as [|i os IH]; cbn [find_original]; intros H; [discriminate|].
  apply bind_Ok in H as (v & Hv & H).
  destruct (str_eq (ItemInput.itemId i) v) eqn:Heq.
  - injection H as <-. exists [], os. auto.
  - assert (Hfind := H). apply IH in H as (before & after & -> & Hbefore).
    exists (i :: before), after. split; [reflexivity|].
    constructor; [|exact Hbefore].
    apply find_original_Some in Hfind as [_ Hid].
    rewrite Hid in Hv. injection Hv as <-.
    cbn [str_eq] in Heq. apply String.eqb_neq. exact Heq.
Qed.

(** X5. When several request items carry the identifier of an entry, the
    record is built from the first of them in request order: the request
    splits into the items before it, none of which has the identifier,
    the item itself, whose identifier, cost and last use are copied, and
    the rest. *)
Theorem first_request_item_with_the_id_is_used {E : Externals}
  (os : list ItemInput.t) (entry : json) (out : ItemDict.t) :
  process_item os entry = Ok (Some out) ->
  exists before o after,
    os = (before ++ o :: after)%list
    /\ Forall (fun i => ItemInput.itemId i <> ItemInput.itemId o) before
    /\ ItemDict.itemId out = JStr (ItemInput.itemId o)
    /\ ItemDict.currentCost out = ItemInput.currentCost o
    /\ ItemDict.lastUsed out = ItemInput.lastUsed o.
Proof.
  intros H.
  apply process_item_Some in H
    as (o & sv & first3 & removal & Hfind & _ & _ & _ & _ & _ & Hid & _
        & Hcost & Hlast & _).
  destruct (find_original_first _ _ _ Hfind) as (before & after & Hos & Hbefore).
  apply find_original_Some in Hfind as [_ Hid'].
  exists before, o, after. repeat split; try assumption. congruence.
Qed.

Lemma first_request_item_with_the_id_is_used_witness :
  exists before o after,
    [Fixture.item_costing 3%float; Fixture.gauze; Fixture.item_costing 5%float]
    = (before ++ o :: after)%list
    /\ Forall (fun i => ItemInput.itemId i <> ItemInput.itemId o) before
    /\ JStr "A1" = JStr (ItemInput.itemId o)
    /\ 3%float = ItemInput.currentCost o
    /\ None = ItemInput.lastUsed o.
Proof.
  apply (@first_request_item_with_the_id_is_used Fixture.E0
           [Fixture.item_costing 3%float; Fixture.gauze; Fixture.item_costing 5%float]
           Fixture.renamed_entry
           {| ItemDict.itemId := JStr "A1";
              ItemDict.name := JStr "Premium Gauze XL";
              ItemDict.currentCost := 3%float;
              ItemDict.lastUsed := None;
              ItemDict.neverUsedFlag := JBool false;
              ItemDict.suggestions := [];
              ItemDict.removalSuggestion :=
                {| RemovalDict.recommended := JBool false;
                   RemovalDict.reason := JNull;
                   RemovalDict.actionableCheckboxId := None |} |}).
  vm_compute. reflexivity.
Defined.

Lemma float_sub_Ok_iff (c : float) (v : json) :
  (exists x, float_sub c v = Ok x) <-> is_number v = true.
Proof.
  destruct v; cbn [float_sub is_number]; split;
    try (intros [x Hx]; discriminate); try discriminate; eauto.
  - intros [x Hx]. destruct (PyFloat.of_int z); [reflexivity | discriminate].
  - destruct (PyFloat.of_int z); cbn [bind]; [eauto | discriminate].
Qed.

(** X6. A suggestion of the model is projected without an exception
    exactly when it is an object with the keys [estimatedCost], [name]
    and [rationale] whose estimated cost is a number ([float], [bool], or
    an [int] in the range of a [float]); the values of [name] and
    [rationale] are not looked at, and [confidence] is optional. *)
Theorem suggestion_is_accepted_iff (current_cost : float) (sugg : json) :
  (exists d, process_suggestion current_cost sugg = Ok d)
  <-> exists fields estimated name rationale,
        sugg = JObj fields
        /\ lookup "estimatedCost" fields = Some estimated
        /\ is_number estimated = true
        /\ lookup "name" fields = Some name
        /\ lookup "rationale" fields = Some rationale.
Proof.
  split.
  - intros [d H]. apply process_suggestion_Ok in H
      as (estimated & difference & Hest & Hdiff & _ & _ & _ & Hname & Hrat & _).
    apply getitem_Ok_dict in Hest as (fields & -> & Hest).
    apply getitem_JObj in Hname, Hrat.
    exists fields, estimated, (SuggestionDict.name d), (SuggestionDict.rationale d).
    repeat split; try assumption.
    apply (float_sub_Ok_iff current_cost). eauto.
  - intros (fields & estimated & name & rationale & -> & Hest & Hnum & Hname & Hrat).
    apply (float_sub_Ok_iff current_cost) in Hnum as [x Hx].
    apply getitem_JObj in Hest, Hname, Hrat.
    unfold process_suggestion.
    rewrite Hest. cbn [bind]. rewrite Hx. cbn [bind].
    rewrite Hname. cbn [bind]. rewrite get_JObj. cbn [bind].
    rewrite Hrat. cbn [bind]. eauto.
Qed.

Lemma suggestion_is_accepted_iff_witness :
  (exists d, process_suggestion 10%float
               (JObj [("name", JNull); ("estimatedCost", JInt 8);
                      ("rationale", JNull)]) = Ok d)
  /\ ~ (exists d, process_suggestion 10%float
                    (JObj [("name", JStr "Generic Gauze");
                           ("estimatedCost", JStr "6.00");
                           ("rationale", JStr "cheaper equivalent")]) = Ok d).
Proof.
  split.
  - apply (proj2 (suggestion_is_accepted_iff 10%float _)).
    exists [("name", JNull); ("estimatedCost", JInt 8); ("rationale", JNull)],
           (JInt 8), JNull, JNull.
    repeat split; reflexivity.
  - intros H.
    apply (proj1 (suggestion_is_accepted_iff 10%float _)) in H
      as (fields & estimated & name & rationale & Hf & Hest & Hnum & _).
    injection Hf as <-. cbn in Hest. injection Hest as <-. discriminate.
Defined.

(** X7. In an entry whose identifier is in the request, [suggestions],
    [neverUsedFlag] and [removalSuggestion] are optional and [name] is
    required: without the three optional keys the record has no
    suggestion, a [False] never-used flag, and a removal that is not
    recommended, has reason [None] and no checkbox; without [name] the
    projector raises [KeyError('name')]. *)
Theorem entry_defaults_and_required_name {E : Externals}
  (os : list ItemInput.t) (d : list (string * json)) (o : ItemInput.t) :
  find_original os (JObj d) = Ok (Some o) ->
  lookup "suggestions" d = None ->
  (forall name,
      lookup "name" d = Some name ->
      lookup "neverUsedFlag" d = None ->
      lookup "removalSuggestion" d = None ->
      process_item os (JObj d)
      = Ok (Some
              {| ItemDict.itemId := JStr (ItemInput.itemId o);
                 ItemDict.name := name;
                 ItemDict.currentCost := ItemInput.currentCost o;
                 ItemDict.lastUsed := ItemInput.lastUsed o;
                 ItemDict.neverUsedFlag := JBool false;
                 ItemDict.suggestions := [];
                 ItemDict.removalSuggestion :=
                   {| RemovalDict.recommended := JBool false;
                      RemovalDict.reason := JNull;
                      RemovalDict.actionableCheckboxId := None |} |}))
  /\ (lookup "name" d = None ->
      process_item os (JObj d) = Raise (KeyError "name")).
Proof.
  intros Hfind Hsuggs.
  pose proof (find_original_Some _ _ _ Hfind) as [_ Hid].
  split.
  - intros name Hname Hnever Hrem. apply getitem_JObj in Hname.
    unfold process_item. rewrite Hfind. cbn [bind].
    rewrite !get_JObj, Hsuggs, Hnever, Hrem. cbn [bind iter_first3 firstn mapM].
    rewrite Hid, Hname. reflexivity.
  - intros Hname.
    unfold process_item. rewrite Hfind. cbn [bind].
    rewrite !get_JObj, Hsuggs. cbn [bind iter_first3 firstn mapM].
    rewrite Hid. cbn [bind getitem]. rewrite Hname. reflexivity.
Qed.

Lemma entry_defaults_and_required_name_witness :
  exists out,
    @process_item Fixture.E0 [Fixture.gauze] bare_entry = Ok (Some out)
    /\ ItemDict.suggestions out = []
    /\ RemovalDict.recommended (ItemDict.removalSuggestion out) = JBool false.
Proof.
  destruct (@entry_defaults_and_required_name Fixture.E0 [Fixture.gauze]
              [("itemId", JStr "A1"); ("name", JStr "Gauze")] Fixture.gauze
              eq_refl eq_refl) as [Hdefaults _].
  eexists. split.
  - apply (Hdefaults (JStr "Gauze")); reflexivity.
  - split; reflexivity.
Defined.

(** X8. A key whose value is [null] is not treated as an absent key: the
    defaults of [get] apply to absent keys only.  With ["suggestions":
    null] the slice [[:3]] raises a [TypeError], and with
    ["removalSuggestion": null] the call of [get] on it raises an
    [AttributeError]. *)
Theorem null_is_not_absent {E : Externals}
  (os : list ItemInput.t) (d : list (string * json)) (o : ItemInput.t) :
  find_original os (JObj d) = Ok (Some o) ->
  (lookup "suggestions" d = Some JNull ->
   process_item os (JObj d)
   = Raise (TypeError "'NoneType' object is not subscriptable"))
  /\ (forall name,
        lookup "suggestions" d = None ->
        lookup "name" d = Some name ->
        lookup "removalSuggestion" d = Some JNull ->
        process_item os (JObj d)
        = Raise (AttributeError "'NoneType' object has no attribute 'get'")).
Proof.
  intros Hfind.
  pose proof (find_original_Some _ _ _ Hfind) as [_ Hid].
  split.
  - intros Hsuggs. unfold process_item. rewrite Hfind. cbn [bind].
    rewrite get_JObj, Hsuggs. reflexivity.
  - intros name Hsuggs Hname Hrem. apply getitem_JObj in Hname.
    unfold process_item. rewrite Hfind. cbn [bind].
    rewrite !get_JObj, Hsuggs, Hrem. cbn [bind iter_first3 firstn mapM].
    rewrite Hid, Hname. reflexivity.
Qed.

Lemma null_is_not_absent_witness :
  @process_item Fixture.E0 [Fixture.gauze] null_suggestions_entry
  = Raise (TypeError "'NoneType' object is not subscriptable")
  /\ @process_item Fixture.E0 [Fixture.gauze] null_removal_entry
     = Raise (AttributeError "'NoneType' object has no attribute 'get'").
Proof.
  split.
  - apply (@null_is_not_absent Fixture.E0 [Fixture.gauze]
             [("itemId", JStr "A1"); ("name", JStr "Gauze"); ("suggestions", JNull)]
             Fixture.gauze eq_refl).
    reflexivity.
  - apply (@null_is_not_absent Fixture.E0 [Fixture.gauze]
             [("itemId", JStr "A1"); ("name", JStr "Gauze");
              ("removalSuggestion", JNull)]
             Fixture.gauze eq_refl) with (name := JStr "Gauze"); reflexivity.
Defined.

(* ================================================================== *)
(** ** 26. The service and the endpoint, outcome by outcome *)

Section EndpointMore.

Context {E : Externals}.

(** No [JSONDecodeError] leaves the extractor. *)
Lemma extract_json_Raise (text : string) (e : exn) :
  _extract_json text = Raise e -> is_JSONDecodeError e = false.
Proof.
  assert (Hstep : forall s next,
    (next = Raise e -> is_JSONDecodeError e = false) ->
    match json_loads s with
    | Ok v => Ok v
    | Raise e' => if is_JSONDecodeError e' then next else Raise e'
    end = Raise e ->
    is_JSONDecodeError e = false).
  { intros s next Hnext. destruct (json_loads s) as [v|e']; [discriminate|].
    destruct (is_JSONDecodeError e') eqn:He'; [exact Hnext|].
    intros H. injection H as <-. exact He'. }
  assert (Hfail : @Raise json extract_error = Raise e ->
                  is_JSONDecodeError e = false).
  { intros H. injection H as <-. reflexivity. }
  assert (Hbraces : forall t, extract_braces t = Raise e ->
                              is_JSONDecodeError e = false).
  { intros t. unfold extract_braces.
    destruct (negb _ && negb _ && _); [|exact Hfail].
    apply Hstep. exact Hfail. }
  unfold _extract_json. apply Hstep. unfold extract_fenced.
  destruct (Re.search fence_pattern (Str.strip text)) as [[body|]|] eqn:Hsearch.
  - apply Hstep. apply Hbraces.
  - apply search_fence in Hsearch as (b & Hb & _). discriminate.
  - apply Hbraces.
Qed.

Lemma handle_response_not_JSONDecodeError (response : GenerateContentResponse)
  (items : list ItemInput.t) (e : exn) :
  handle_response response items = Raise e -> is_JSONDecodeError e = false.
Proof.
  unfold handle_response.
  destruct (candidates response) as [|[[|text parts]|] others];
    try (intros H; injection H as <-; reflexivity).
  intros H. apply bind_Raise in H as [H | (parsed & _ & H)].
  - exact (extract_json_Raise _ _ H).
  - apply not_ValueError_not_JSONDecodeError.
    eapply projector_not_ValueError; eauto.
Qed.

(** The service after the handlers of its [try] statement. *)
Lemma service_outcome (items : list ItemInput.t) (sub_grid : string)
  (procedure_type : option string) :
  let prompt := build_suggestion_prompt items sub_grid procedure_type in
  GeminiService.generate_suggestions items sub_grid procedure_type
  = (match generate_content prompt with
     | Raise e =>
         if is_JSONDecodeError e
         then Raise (UnboundLocalError
                "cannot access local variable 'raw_text' where it is not associated with a value")
         else Raise e
     | Ok response => handle_response response items
     end, [prompt]).
Proof.
  intros prompt. unfold GeminiService.generate_suggestions. fold prompt.
  destruct (generate_content prompt) as [response|e].
  - destruct (handle_response response items) as [v|e] eqn:H; [reflexivity|].
    rewrite (handle_response_not_JSONDecodeError _ _ _ H). reflexivity.
  - destruct (is_JSONDecodeError e); reflexivity.
Qed.

Lemma try_body_accepted (request : SuggestionRequest.t) :
  accepted request ->
  Main.try_body request
  = (gemini_result <-
       fst (GeminiService.generate_suggestions (SuggestionRequest.items request)
              (SuggestionRequest.subGrid request)
              (SuggestionRequest.procedureType request)) ;;
     Main.build_response request gemini_result,
     [prompt_of request]).
Proof.
  intros [Hne Hlen]. unfold Main.try_body.
  destruct (SuggestionRequest.items request) as [|i rest] eqn:Hitems;
    [congruence|].
  replace (50 <? Z.of_nat (List.length (i :: rest))) with false
    by (symmetry; apply Z.ltb_ge; lia).
  rewrite service_outcome. unfold prompt_of. rewrite Hitems. reflexivity.
Qed.

Lemma try_body_rejected (request : SuggestionRequest.t) :
  ~ accepted request ->
  exists detail, Main.try_body request = (Raise (HTTPException 400 detail), []).
Proof.
  intros Hno. unfold Main.try_body.
  destruct (SuggestionRequest.items request) as [|i rest] eqn:Hitems; [eauto|].
  destruct (Z.ltb_spec 50 (Z.of_nat (List.length (i :: rest)))); [eauto|].
  exfalso. apply Hno. unfold accepted. rewrite Hitems. split; [discriminate | lia].
Qed.

Lemma accepted_dec (request : SuggestionRequest.t) :
  accepted request \/ ~ accepted request.
Proof.
  unfold accepted.
  destruct (SuggestionRequest.items request) as [|i rest].
  - right. intros [H _]. congruence.
  - destruct (le_gt_dec (List.length (i :: rest)) 50).
    + left. split; [discriminate | assumption].
    + right. intros [_ H]. lia.
Qed.

Lemma validate_Raise (dicts : list ItemDict.t) (e : exn) :
  mapM Main.validate dicts = Raise e -> exists msg, e = ValidationError msg.
Proof.
  intros H. apply mapM_Raise in H as (d & _ & H).
  unfold Main.validate in H.
  destruct (validate_ItemAnalysis d); inversion H. eauto.
Qed.

Lemma build_response_Raise (request : SuggestionRequest.t)
  (dicts : list ItemDict.t) (e : exn) :
  Main.build_response request dicts = Raise e <-> mapM Main.validate dicts = Raise e.
Proof.
  unfold Main.build_response.
  destruct (mapM Main.validate dicts); cbn [bind]; split; intros H;
    congruence.
Qed.

End EndpointMore.

(** X9. The endpoint calls the provider exactly once, with the prompt
    built from the request, when the request has between 1 and 50 items,
    whatever happens afterwards; a request with no item or with more
    than 50 is answered without any call. *)
Theorem provider_is_called_once_iff_accepted {E : Externals}
  (request : SuggestionRequest.t) :
  (accepted request ->
   snd (Main.generate_suggestions request) = [prompt_of request])
  /\ (~ accepted request -> snd (Main.generate_suggestions request) = []).
Proof.
  unfold Main.generate_suggestions. split.
  - intros H. rewrite (try_body_accepted request H).
    destruct (bind _ _) as [v|e]; [reflexivity|].
    destruct (is_ValueError e); reflexivity.
  - intros H. destruct (try_body_rejected request H) as [detail ->]. reflexivity.
Qed.

Lemma provider_is_called_once_iff_accepted_witness :
  snd (@Main.generate_suggestions (replying (Raise (OtherError "503 unavailable")))
         gauze_request) = ["prompt"]
  /\ snd (@Main.generate_suggestions Fixture.E0 (Fixture.request_of [])) = [].
Proof.
  split.
  - apply (@provider_is_called_once_iff_accepted
             (replying (Raise (OtherError "503 unavailable"))) gauze_request).
    split; [discriminate | simpl; lia].
  - apply (@provider_is_called_once_iff_accepted Fixture.E0 (Fixture.request_of [])).
    intros [H _]. apply H. reflexivity.
Defined.

Section Status.

Context {E : Externals}.

Lemma endpoint_422 (request : SuggestionRequest.t) (detail : string) :
  fst (Main.generate_suggestions request) = Main.ErrorResponse 422 detail ->
  exists e, fst (Main.try_body request) = Raise e
            /\ is_ValueError e = true /\ detail = str_exn e.
Proof.
  unfold Main.generate_suggestions.
  destruct (Main.try_body request) as [[v|e] calls]; cbn [fst]; [discriminate|].
  destruct (is_ValueError e) eqn:Hve; cbn [fst]; intros H; inversion H.
  exists e. auto.
Qed.

Lemma endpoint_of_Raise (request : SuggestionRequest.t) (e : exn) :
  fst (Main.try_body request) = Raise e ->
  fst (Main.generate_suggestions request)
  = if is_ValueError e then Main.ErrorResponse 422 (str_exn e)
    else Main.ErrorResponse 500 ("Internal server error: " ++ str_exn e).
Proof.
  unfold Main.generate_suggestions.
  destruct (Main.try_body request) as [r calls]. cbn [fst]. intros ->.
  destruct (is_ValueError e); reflexivity.
Qed.

Lemma handle_response_text (response : GenerateContentResponse)
  (items : list ItemInput.t) (text : string) (parts : list string)
  (others : list (option (list string))) :
  candidates response = Some (text :: parts) :: others ->
  handle_response response items
  = (parsed <- _extract_json text ;; _process_gemini_response parsed items).
Proof. intros H. unfold handle_response. rewrite H. reflexivity. Qed.

Lemma try_body_answered (request : SuggestionRequest.t) (text : string) :
  accepted request -> answered_with request text ->
  fst (Main.try_body request)
  = (parsed <- _extract_json text ;;
     dicts <- _process_gemini_response parsed (SuggestionRequest.items request) ;;
     Main.build_response request dicts).
Proof.
  intros Hacc (response & parts & others & Hgen & Hcand).
  rewrite (try_body_accepted request Hacc). cbn [fst].
  rewrite service_outcome. cbn [fst]. fold (prompt_of request).
  rewrite Hgen, (handle_response_text _ _ _ _ _ Hcand).
  destruct (_extract_json text); reflexivity.
Qed.

End Status.

(** X10. The endpoint answers 422 with a given detail exactly when the
    request has between 1 and 50 items and one of five things happens,
    the detail being the message of the [ValueError]: the provider call
    raises a [ValueError] that is not a [JSONDecodeError]; the answer has
    no candidate; the first candidate has no content or no part; the
    extractor raises a [ValueError] on the first part, which is its own
    when no strategy extracts an object, or one that [json.loads] raised
    and that is not a [JSONDecodeError]; or the response model rejects a
    projected record.  An exception of [json.loads] that is not a
    [ValueError], such as [RecursionError], is therefore not answered
    422. *)
Theorem status_422_iff_unprocessable {E : Externals}
  (request : SuggestionRequest.t) (detail : string) :
  fst (Main.generate_suggestions request) = Main.ErrorResponse 422 detail
  <-> accepted request /\ unprocessable request detail.
Proof.
  split.
  - intros H. apply endpoint_422 in H as (e & Hbody & Hve & ->).
    destruct (accepted_dec request) as [Hacc | Hno].
    2:{ destruct (try_body_rejected request Hno) as [d Hd].
        rewrite Hd in Hbody. injection Hbody as <-. discriminate. }
    split; [exact Hacc|].
    rewrite (try_body_accepted request Hacc) in Hbody.
    cbn [fst] in Hbody. rewrite service_outcome in Hbody. cbn [fst] in Hbody.
    fold (prompt_of request) in Hbody.
    destruct (generate_content (prompt_of request)) as [response|e0] eqn:Hgen.
    + unfold handle_response in Hbody.
      destruct (candidates response) as [|[[|text parts]|] others] eqn:Hcand;
        cbn [bind] in Hbody.
      * injection Hbody as <-. eapply no_candidates; eauto.
      * injection Hbody as <-. eapply no_content; eauto.
      * assert (Hans : answered_with request text).
        { exists response, parts, others. auto. }
        destruct (_extract_json text) as [parsed|e1] eqn:Hext; cbn [bind] in Hbody.
        -- destruct (_process_gemini_response parsed (SuggestionRequest.items request))
             as [dicts|e2] eqn:Hproj; cbn [bind] in Hbody.
           ++ apply build_response_Raise in Hbody.
              destruct (validate_Raise _ _ Hbody) as [msg ->].
              eapply invalid_record; eauto.
           ++ injection Hbody as <-.
              rewrite (projector_not_ValueError _ _ _ Hproj) in Hve. discriminate.
        -- injection Hbody as <-. eapply not_extracted; eauto.
      * injection Hbody as <-. eapply no_content; eauto.
    + destruct (is_JSONDecodeError e0) eqn:Hjd; cbn [bind] in Hbody;
        injection Hbody as <-; [discriminate|].
      apply provider_value_error; auto.
  - intros [Hacc Hun].
    assert (Hbody : exists e, fst (Main.try_body request) = Raise e
                              /\ is_ValueError e = true /\ detail = str_exn e).
    { destruct Hun as [e Hgen Hve Hjd | response Hgen Hcand
                      | response candidate others Hgen Hcand Hnone
                      | text e Hans Hext Hve
                      | text parsed dicts msg Hans Hext Hproj Hval].
      - exists e. rewrite (try_body_accepted request Hacc). cbn [fst].
        rewrite service_outcome. cbn [fst]. fold (prompt_of request).
        rewrite Hgen, Hjd. auto.
      - eexists. rewrite (try_body_accepted request Hacc). cbn [fst].
        rewrite service_outcome. cbn [fst]. fold (prompt_of request).
        rewrite Hgen. unfold handle_response. rewrite Hcand. cbn [bind]. auto.
      - eexists. rewrite (try_body_accepted request Hacc). cbn [fst].
        rewrite service_outcome. cbn [fst]. fold (prompt_of request).
        rewrite Hgen. unfold handle_response. rewrite Hcand.
        destruct Hnone as [-> | ->]; cbn [bind]; auto.
      - exists e. rewrite (try_body_answered request text Hacc Hans).
        rewrite Hext. auto.
      - exists (ValidationError msg).
        rewrite (try_body_answered request text Hacc Hans).
        rewrite Hext. cbn [bind]. rewrite Hproj. cbn [bind].
        split; [|auto]. apply build_response_Raise. exact Hval. }
    destruct Hbody as (e & Hbody & Hve & ->).
    rewrite (endpoint_of_Raise request e Hbody), Hve. reflexivity.
Qed.

Lemma status_422_iff_unprocessable_witness :
  fst (@Main.generate_suggestions (replying (Ok {| candidates := [] |}))
         gauze_request)
  = Main.ErrorResponse 422
      "Gemini returned empty response - request may have been blocked by safety filters"
  /\ fst (@Main.generate_suggestions
            (replying (Fixture.text_reply Fixture.refusal_text)) gauze_request)
     = Main.ErrorResponse 422 "Could not extract valid JSON from Gemini response"
  /\ fst (@Main.generate_suggestions Fixture.E_limit gauze_request)
     = Main.ErrorResponse 422 (str_exn Fixture.int_limit_error).
Proof.
  split; [|split].
  - apply (@status_422_iff_unprocessable (replying (Ok {| candidates := [] |}))).
    split; [split; [discriminate | simpl; lia]|].
    eapply (@no_candidates (replying (Ok {| candidates := [] |}))); reflexivity.
  - apply (@status_422_iff_unprocessable
             (replying (Fixture.text_reply Fixture.refusal_text))).
    split; [split; [discriminate | simpl; lia]|].
    apply (@not_extracted (replying (Fixture.text_reply Fixture.refusal_text))
             gauze_request Fixture.refusal_text extract_error).
    + eexists. exists [], []. split; reflexivity.
    + vm_compute. reflexivity.
    + reflexivity.
  - apply (@status_422_iff_unprocessable Fixture.E_limit).
    split; [split; [discriminate | simpl; lia]|].
    apply (@not_extracted Fixture.E_limit gauze_request
             Fixture.long_integer_then_fence Fixture.int_limit_error).
    + eexists. exists [], []. split; reflexivity.
    + vm_compute. reflexivity.
    + reflexivity.
Defined.

Lemma endpoint_accepted {E : Externals} (request : SuggestionRequest.t) :
  accepted request ->
  Main.generate_suggestions request
  = (fst (Main.generate_suggestions request), [prompt_of request]).
Proof.
  intros H. unfold Main.generate_suggestions.
  rewrite (try_body_accepted request H).
  destruct (bind _ _) as [v|e]; [reflexivity|].
  destruct (is_ValueError e); reflexivity.
Qed.

(** X11. No exception of the projector is a [ValueError], so every answer
    that is extracted but makes the projector raise (a list where the
    object is expected, an entry that is not an object, a missing
    required key, a [null]) is answered 500, with the text of the
    exception after ["Internal server error: "], and after one provider
    call. *)
Theorem projector_exception_is_answered_500 {E : Externals}
  (request : SuggestionRequest.t) (text : string) (parsed : json) (e : exn) :
  accepted request ->
  answered_with request text ->
  _extract_json text = Ok parsed ->
  _process_gemini_response parsed (SuggestionRequest.items request) = Raise e ->
  Main.generate_suggestions request
  = (Main.ErrorResponse 500 ("Internal server error: " ++ str_exn e),
     [prompt_of request]).
Proof.
  intros Hacc Hans Hext Hproj.
  rewrite (endpoint_accepted request Hacc). f_equal.
  rewrite (endpoint_of_Raise request e).
  - rewrite (projector_not_ValueError _ _ _ Hproj). reflexivity.
  - rewrite (try_body_answered request text Hacc Hans), Hext. cbn [bind].
    rewrite Hproj. reflexivity.
Qed.

Lemma projector_exception_is_answered_500_witness :
  @Main.generate_suggestions (replying (Fixture.text_reply "[]")) gauze_request
  = (Main.ErrorResponse 500
       "Internal server error: 'list' object has no attribute 'get'", ["prompt"]).
Proof.
  apply (@projector_exception_is_answered_500 (replying (Fixture.text_reply "[]"))
           gauze_request "[]" (JArr [])
           (AttributeError "'list' object has no attribute 'get'")).
  - split; [discriminate | simpl; lia].
  - eexists. exists [], []. split; reflexivity.
  - reflexivity.
  - reflexivity.
Defined.

(** X12. An exception raised by the provider call passes the handlers of
    the service and is answered 422 with its message when it is a
    [ValueError] and 500 otherwise; the one exception is a
    [JSONDecodeError], whose handler in the service reads [raw_text]
    before any assignment, so the service raises [UnboundLocalError]
    instead and the answer is 500. *)
Theorem provider_exception_status {E : Externals}
  (request : SuggestionRequest.t) (e : exn) :
  accepted request ->
  generate_content (prompt_of request) = Raise e ->
  (is_JSONDecodeError e = false ->
   Main.generate_suggestions request
   = (if is_ValueError e
      then Main.ErrorResponse 422 (str_exn e)
      else Main.ErrorResponse 500 ("Internal server error: " ++ str_exn e),
      [prompt_of request]))
  /\ (is_JSONDecodeError e = true ->
      exists msg,
        fst (GeminiService.generate_suggestions (SuggestionRequest.items request)
               (SuggestionRequest.subGrid request)
               (SuggestionRequest.procedureType request))
        = Raise (UnboundLocalError msg)
        /\ Main.generate_suggestions request
           = (Main.ErrorResponse 500 ("Internal server error: " ++ msg),
              [prompt_of request])).
Proof.
  intros Hacc Hgen.
  assert (Hsvc := service_outcome (SuggestionRequest.items request)
                    (SuggestionRequest.subGrid request)
                    (SuggestionRequest.procedureType request)).
  cbn zeta in Hsvc. fold (prompt_of request) in Hsvc. rewrite Hgen in Hsvc.
  split; intros Hjd; rewrite Hjd in Hsvc.
  - rewrite (endpoint_accepted request Hacc). f_equal.
    apply endpoint_of_Raise.
    rewrite (try_body_accepted request Hacc). cbn [fst]. rewrite Hsvc. reflexivity.
  - match type of Hsvc with
    | _ = (Raise (UnboundLocalError ?m), _) => exists m
    end.
    split; [rewrite Hsvc; reflexivity|].
    rewrite (endpoint_accepted request Hacc). f_equal.
    match type of Hsvc with
    | _ = (Raise ?u, _) => rewrite (endpoint_of_Raise request u); [reflexivity|]
    end.
    rewrite (try_body_accepted request Hacc). cbn [fst]. rewrite Hsvc. reflexivity.
Qed.

Lemma provider_exception_status_witness :
  @Main.generate_suggestions (replying (Raise (OtherError "503 unavailable")))
     gauze_request
  = (Main.ErrorResponse 500 "Internal server error: 503 unavailable", ["prompt"])
  /\ exists msg,
       @Main.generate_suggestions
          (replying (Raise (JSONDecodeError "Expecting value"))) gauze_request
       = (Main.ErrorResponse 500 ("Internal server error: " ++ msg), ["prompt"]).
Proof.
  split.
  - apply (@provider_exception_status (replying (Raise (OtherError "503 unavailable")))
             gauze_request (OtherError "503 unavailable"));
      try reflexivity.
    split; [discriminate | simpl; lia].
  - destruct (@provider_exception_status
                (replying (Raise (JSONDecodeError "Expecting value")))
                gauze_request (JSONDecodeError "Expecting value")) as [_ H].
    + split; [discriminate | simpl; lia].
    + reflexivity.
    + destruct (H eq_refl) as (msg & _ & Hmsg). exists msg. exact Hmsg.
Defined.

(* ================================================================== *)
(** ** 27. Successful answers, the priority list and the summary *)

Lemma priority_ids_origin (item : ItemAnalysis.t) (id : string) :
  In id (Spec.priority_ids item) ->
  id = ItemAnalysis.itemId item
  /\ (RemovalSuggestion.recommended (ItemAnalysis.removalSuggestion item) = true
      \/ exists s, In s (ItemAnalysis.suggestions item)
                   /\ PyFloat.gt (AlternativeSuggestion.costSavings s) 50%float = true).
Proof.
  unfold Spec.priority_ids, Spec.exceeds_threshold, Prompts.max_savings.
  intros H. apply in_app_or in H as [H | H].
  - destruct (ItemAnalysis.suggestions item) as [|s rest] eqn:Hs; [contradiction|].
    destruct (PyFloat.gt _ _) eqn:Hgt; [|contradiction].
    destruct H as [<- | []]. split; [reflexivity|]. right.
    pose proof (max_is_element (AlternativeSuggestion.costSavings s)
                  (map AlternativeSuggestion.costSavings rest)) as Hin.
    change (AlternativeSuggestion.costSavings s
              :: map AlternativeSuggestion.costSavings rest)
      with (map AlternativeSuggestion.costSavings (s :: rest)) in Hin.
    apply in_map_iff in Hin as (s' & Heq & Hin).
    exists s'. rewrite Heq. auto.
  - destruct (RemovalSuggestion.recommended _) eqn:Hrec; [|contradiction].
    destruct H as [<- | []]. auto.
Qed.

(** X13. Before the cut to five, an identifier is on the priority list
    only if it is the identifier of an analysed item whose removal is
    recommended or one of whose suggestions saves more than 50, and the
    identifier of every analysed item whose removal is recommended is on
    it. *)
Theorem priority_list_membership (items_analyzed : list ItemAnalysis.t) :
  (forall id,
      In id (Main.priority_loop items_analyzed) ->
      exists item,
        In item items_analyzed
        /\ ItemAnalysis.itemId item = id
        /\ (RemovalSuggestion.recommended (ItemAnalysis.removalSuggestion item) = true
            \/ exists s, In s (ItemAnalysis.suggestions item)
                         /\ PyFloat.gt (AlternativeSuggestion.costSavings s) 50%float
                            = true))
  /\ (forall item,
        In item items_analyzed ->
        RemovalSuggestion.recommended (ItemAnalysis.removalSuggestion item) = true ->
        In (ItemAnalysis.itemId item) (Main.priority_loop items_analyzed)).
Proof.
  unfold Main.priority_loop. rewrite priority_fold. cbn [app]. split.
  - intros id H. apply in_flat_map in H as (item & Hitem & Hid).
    apply priority_ids_origin in Hid as [-> Hwhy]. exists item. auto.
  - intros item Hitem Hrec. apply in_flat_map. exists item. split; [exact Hitem|].
    unfold Spec.priority_ids. rewrite Hrec. apply in_or_app. right. left. reflexivity.
Qed.

Lemma priority_list_membership_witness :
  In "A3" (Main.priority_loop Fixture.six_items)
  /\ exists item,
       In item Fixture.six_items
       /\ ItemAnalysis.itemId item = "A4"
       /\ (RemovalSuggestion.recommended (ItemAnalysis.removalSuggestion item) = true
           \/ exists s, In s (ItemAnalysis.suggestions item)
                        /\ PyFloat.gt (AlternativeSuggestion.costSavings s) 50%float
                           = true).
Proof.
  destruct (priority_list_membership Fixture.six_items) as [Honly Hrec].
  split.
  - apply (Hrec (Fixture.analysis "A3" [] true true)).
    + simpl. auto.
    + reflexivity.
  - apply Honly. vm_compute. auto 10.
Defined.

Section Success.

Context {E : Externals}.

Lemma endpoint_200 (request : SuggestionRequest.t) (response : SuggestionResponse.t) :
  fst (Main.generate_suggestions request) = Main.Response200 response
  <-> fst (Main.try_body request) = Ok response.
Proof.
  unfold Main.generate_suggestions.
  destruct (Main.try_body request) as [[v|e] calls]; cbn [fst].
  - split; intros H; inversion H; reflexivity.
  - destruct (is_ValueError e); cbn [fst]; split; discriminate.
Qed.

Lemma validate_Forall2 (dicts : list ItemDict.t) (items : list ItemAnalysis.t) :
  mapM Main.validate dicts = Ok items ->
  Forall2 (fun d a => validate_ItemAnalysis d = inr a) dicts items.
Proof.
  intros H. apply mapM_Forall2 in H.
  eapply Forall2_impl; [|exact H].
  intros d a Hd. unfold Main.validate in Hd.
  destruct (validate_ItemAnalysis d); inversion Hd. reflexivity.
Qed.

End Success.

(** X14. A 200 answer is only given to a request with between 1 and 50
    items, after exactly one provider call whose first part was
    extracted and projected, and when the response model accepted every
    projected record, in order.  It echoes [spcId] and [subGrid] of the
    request, its summary is that of the analysed items, its page size is
    their number, and it has at most five priority items. *)
Theorem success_response_shape {E : Externals}
  (request : SuggestionRequest.t) (response : SuggestionResponse.t)
  (calls : list string) :
  Main.generate_suggestions request = (Main.Response200 response, calls) ->
  accepted request
  /\ calls = [prompt_of request]
  /\ (exists text parsed dicts,
        answered_with request text
        /\ _extract_json text = Ok parsed
        /\ _process_gemini_response parsed (SuggestionRequest.items request)
           = Ok dicts
        /\ Forall2 (fun d a => validate_ItemAnalysis d = inr a) dicts
             (SuggestionResponse.itemsAnalyzed response))
  /\ SuggestionResponse.spcId response = SuggestionRequest.spcId request
  /\ SuggestionResponse.subGrid response = SuggestionRequest.subGrid request
  /\ SuggestionResponse.summary response
     = Prompts.build_summary_prompt (SuggestionResponse.itemsAnalyzed response)
  /\ UIHints.pagination_pageSize (SuggestionResponse.uiHints response)
     = Z.of_nat (List.length (SuggestionResponse.itemsAnalyzed response))
  /\ (List.length (UIHints.priorityItems (SuggestionResponse.uiHints response))
      <= 5)%nat.
Proof.
  intros H.
  assert (Hfst : fst (Main.generate_suggestions request) = Main.Response200 response)
    by (rewrite H; reflexivity).
  assert (Hsnd : snd (Main.generate_suggestions request) = calls)
    by (rewrite H; reflexivity).
  apply endpoint_200 in Hfst.
  destruct (accepted_dec request) as [Hacc | Hno].
  2:{ destruct (try_body_rejected request Hno) as [d Hd].
      rewrite Hd in Hfst. discriminate. }
  split; [exact Hacc|]. split.
  { rewrite (endpoint_accepted request Hacc) in Hsnd. cbn [snd] in Hsnd. congruence. }
  rewrite (try_body_accepted request Hacc) in Hfst. cbn [fst] in Hfst.
  rewrite service_outcome in Hfst. cbn [fst] in Hfst.
  fold (prompt_of request) in Hfst.
  destruct (generate_content (prompt_of request)) as [resp|e] eqn:Hgen.
  2:{ destruct (is_JSONDecodeError e); discriminate. }
  unfold handle_response in Hfst.
  destruct (candidates resp) as [|[[|text parts]|] others] eqn:Hcand;
    try discriminate.
  apply bind_Ok in Hfst as (dicts & Hsvc & Hbuild).
  apply bind_Ok in Hsvc as (parsed & Hext & Hproj).
  unfold Main.build_response in Hbuild.
  apply bind_Ok in Hbuild as (items_analyzed & Hval & Hbuild).
  injection Hbuild as <-.
  cbn [SuggestionResponse.itemsAnalyzed SuggestionResponse.spcId
       SuggestionResponse.subGrid SuggestionResponse.summary
       SuggestionResponse.uiHints UIHints.pagination_pageSize
       UIHints.priorityItems].
  split.
  { exists text, parsed, dicts. repeat split; try assumption.
    - exists resp, parts, others. auto.
    - apply validate_Forall2. exact Hval. }
  repeat split. unfold Main.top5. apply firstn_le_length.
Qed.

Lemma success_response_shape_witness :
  exists response,
    @Main.generate_suggestions
       (Fixture.answering (JObj [("items", JArr [Fixture.gauze_entry])]))
       gauze_request
    = (Main.Response200 response, ["prompt"])
    /\ UIHints.pagination_pageSize (SuggestionResponse.uiHints response) = 1
    /\ SuggestionResponse.spcId response = "SPC-1".
Proof.
  eexists. split; [vm_compute; reflexivity|].
  destruct (@success_response_shape
              (Fixture.answering (JObj [("items", JArr [Fixture.gauze_entry])]))
              gauze_request _ ["prompt"] eq_refl)
    as (_ & _ & _ & Hspc & _ & _ & Hsize & _).
  split; [exact Hsize | exact Hspc].
Defined.

(** X15. An object without the key [items] is not an error: the projector
    reads an empty list, and the endpoint answers 200 with no analysed
    item, the summary of zero items, no priority item and page size 0,
    although the request had items. *)
Theorem answer_without_items_is_an_empty_success {E : Externals}
  (request : SuggestionRequest.t) (text : string) (d : list (string * json)) :
  accepted request ->
  answered_with request text ->
  _extract_json text = Ok (JObj d) ->
  lookup "items" d = None ->
  Main.generate_suggestions request
  = (Main.Response200
       {| SuggestionResponse.spcId := SuggestionRequest.spcId request;
          SuggestionResponse.subGrid := SuggestionRequest.subGrid request;
          SuggestionResponse.itemsAnalyzed := [];
          SuggestionResponse.summary := empty_summary;
          SuggestionResponse.uiHints :=
            {| UIHints.displayMode := "panel";
               UIHints.priorityItems := [];
               UIHints.pagination_page := 1;
               UIHints.pagination_pageSize := 0 |} |},
     [prompt_of request]).
Proof.
  intros Hacc Hans Hext Hd.
  rewrite (endpoint_accepted request Hacc). f_equal.
  apply endpoint_200.
  rewrite (try_body_answered request text Hacc Hans), Hext. cbn [bind].
  unfold _process_gemini_response. rewrite get_JObj, Hd. reflexivity.
Qed.

Lemma answer_without_items_is_an_empty_success_witness :
  exists response,
    @Main.generate_suggestions (replying (Fixture.text_reply "{}")) gauze_request
    = (Main.Response200 response, ["prompt"])
    /\ SuggestionResponse.itemsAnalyzed response = [].
Proof.
  eexists. split.
  - apply (@answer_without_items_is_an_empty_success
             (replying (Fixture.text_reply "{}")) gauze_request "{}" []).
    + split; [discriminate | simpl; lia].
    + eexists. exists [], []. split; reflexivity.
    + reflexivity.
    + reflexivity.
  - reflexivity.
Defined.

Lemma max_savings_view (item : ItemAnalysis.t) :
  Prompts.max_savings item
  = match fst (summary_view item) with
    | [] => None
    | x :: rest => Some (PyFloat.max x rest)
    end.
Proof.
  unfold Prompts.max_savings, summary_view. cbn [fst].
  destruct (ItemAnalysis.suggestions item); reflexivity.
Qed.

Lemma has_suggestions_view (item : ItemAnalysis.t) :
  Prompts.has_suggestions item
  = match fst (summary_view item) with [] => false | _ => true end.
Proof.
  unfold Prompts.has_suggestions, summary_view. cbn [fst].
  destruct (ItemAnalysis.suggestions item); reflexivity.
Qed.

(** X16. The summary reads only the cost savings of the suggestions and
    the never-used flag of each item: two lists of analysed items that
    agree on these, item by item, have the same summary, whatever their
    identifiers, names, costs and removal suggestions. *)
Theorem summary_depends_only_on_savings_and_flags
  (l1 l2 : list ItemAnalysis.t) :
  map summary_view l1 = map summary_view l2 ->
  Prompts.build_summary_prompt l1 = Prompts.build_summary_prompt l2.
Proof.
  intros H. unfold Prompts.build_summary_prompt.
  assert (Hlen : List.length l1 = List.length l2).
  { rewrite <- (length_map summary_view l1), H. apply length_map. }
  assert (Hparts :
    Prompts.count_if Prompts.has_suggestions l1
      = Prompts.count_if Prompts.has_suggestions l2
    /\ Prompts.count_if ItemAnalysis.neverUsedFlag l1
       = Prompts.count_if ItemAnalysis.neverUsedFlag l2
    /\ Prompts.savings_terms l1 = Prompts.savings_terms l2).
  { clear Hlen. revert l2 H.
    induction l1 as [|a l1 IH]; intros [|b l2] H; try discriminate.
    - auto.
    - cbn [map] in H.
      assert (Hab : summary_view a = summary_view b) by congruence.
      assert (Htl : map summary_view l1 = map summary_view l2) by congruence.
      destruct (IH l2 Htl) as (H1 & H2 & H3).
      cbn [Prompts.count_if Prompts.savings_terms].
      rewrite !has_suggestions_view, !max_savings_view, Hab, H1, H3.
      replace (ItemAnalysis.neverUsedFlag a) with (snd (summary_view a))
        by reflexivity.
      replace (ItemAnalysis.neverUsedFlag b) with (snd (summary_view b))
        by reflexivity.
      rewrite Hab, H2. auto. }
  destruct Hparts as (-> & -> & ->). rewrite Hlen. reflexivity.
Qed.

Lemma summary_depends_only_on_savings_and_flags_witness :
  Prompts.build_summary_prompt [Fixture.analysis "A1" [60%float] true true]
  = Prompts.build_summary_prompt [Fixture.analysis "B7" [60%float] true false].
Proof.
  apply summary_depends_only_on_savings_and_flags. reflexivity.
Defined.
